(** * DynamoDB.js: the table client adapter, embedded and verified

    The adapter of [src/DynamoDB.js] is a class with one remote client
    handle and a development flag.  Every method builds a parameter
    object, sends one command through the client and turns the outcome
    into a result or an [HttpError].

    Embedding:
    - JavaScript values are the data type [JsVal]; objects are finite maps
      from property names to values ([gmap string JsVal]), arrays are lists.
      A read [v[k]] finds the own property, and without one the member
      inherited from [Object.prototype] ([constructor], [toString], ...,
      [__proto__]), which is the opaque value [JBuiltin k].  The further
      members of [Array.prototype], [String.prototype], [Number.prototype],
      [Boolean.prototype] and [Function.prototype] are outside the model:
      the adapter reads by a variable name from objects only.
    - Strings are [string]; one character stands for one UTF-16 code unit
      (code units below 256).
    - An [async] method is a computation in the monad [M]: it threads the
      state of the remote service, the trace of the commands sent and the
      console, and it either returns a value or throws.
    - The AWS client is not part of the repository.  Its [send] is a
      parameter of the development: a function from a command and the
      state of the service to a response object or an [Error], and the
      next state of the service. *)

From Stdlib Require Import Ascii String.
From stdpp Require Import gmap strings list fin_maps.

#[local] Set Warnings "-register-all".
#[local] Open Scope string_scope.

(** ** JavaScript values *)

Inductive JsVal : Type :=
| JUndefined
| JNull
| JBool (b : bool)
| JNum (n : Z)
| JStr (s : string)
| JArr (l : list JsVal)
| JObj (m : gmap string JsVal)
| JBuiltin (name : string).

#[export] Instance JsVal_inhabited : Inhabited JsVal := populate JUndefined.

(** A JavaScript object as the adapter uses it: a map of own properties. *)
Abbreviation JsObject := (gmap string JsVal).

(** ToBoolean. Numbers are integers here, so 0 is the only falsy one. *)
Definition truthy (v : JsVal) : bool :=
  match v with
  | JUndefined | JNull => false
  | JBool b => b
  | JNum n => negb (n =? 0)%Z
  | JStr s => negb (String.eqb s "")
  | JArr _ | JObj _ | JBuiltin _ => true
  end.

(** Truthiness of an optional string argument ([string|null]): [null],
    [undefined] and the empty string are falsy. *)
Definition truthy_str (o : option string) : bool :=
  match o with
  | Some s => negb (String.eqb s "")
  | None => false
  end.

(** ** Strings *)

(** [key.slice(1)]: the string without its first code unit. *)
Definition slice1 (s : string) : string :=
  match s with
  | EmptyString => EmptyString
  | String _ rest => rest
  end.

Definition is_digit (c : ascii) : bool :=
  let n := nat_of_ascii c in ((48 <=? n) && (n <=? 57))%nat.

Fixpoint all_digits (s : string) : bool :=
  match s with
  | EmptyString => true
  | String c rest => is_digit c && all_digits rest
  end.

Fixpoint digits_value (acc : nat) (s : string) : nat :=
  match s with
  | EmptyString => acc
  | String c rest => digits_value (10 * acc + (nat_of_ascii c - 48)) rest
  end.

(** A property name that is a canonical array index: ["0"], or digits
    without a leading zero. *)
Definition parse_index (k : string) : option nat :=
  match k with
  | EmptyString => None
  | String c rest =>
      if all_digits k && (negb (Ascii.eqb c "0"%char) || String.eqb rest "")
      then Some (digits_value 0 k) else None
  end.

(** White space and line terminators removed by [String.prototype.trim]
    (those below 256). *)
Definition is_space (c : ascii) : bool :=
  let n := nat_of_ascii c in
  (((9 <=? n) && (n <=? 13)) || (n =? 32) || (n =? 160))%nat.

Fixpoint trim_start (s : string) : string :=
  match s with
  | EmptyString => EmptyString
  | String c rest => if is_space c then trim_start rest else s
  end.

Fixpoint trim_end (s : string) : string :=
  match s with
  | EmptyString => EmptyString
  | String c rest =>
      match trim_end rest with
      | EmptyString => if is_space c then EmptyString else String c EmptyString
      | rest' => String c rest'
      end
  end.

Definition trim (s : string) : string := trim_end (trim_start s).

(** [s.split(',')]: always at least one piece. *)
Fixpoint split_comma (s : string) : list string :=
  match s with
  | EmptyString => [EmptyString]
  | String c rest =>
      if Ascii.eqb c ","%char then EmptyString :: split_comma rest
      else match split_comma rest with
           | piece :: pieces => String c piece :: pieces
           | [] => [String c EmptyString]
           end
  end.

(** [pieces.join(sep)]. *)
Fixpoint join (sep : string) (pieces : list string) : string :=
  match pieces with
  | [] => ""
  | [piece] => piece
  | piece :: rest => piece +:+ sep +:+ join sep rest
  end.

(** ** Errors *)

(** [class HttpError extends Error]: the normalized error. *)
Record HttpError := { message : string; statusCode : Z }.

(** Any other [Error] object: what the client rejects with, or a
    [TypeError] raised by the adapter's own code. *)
Record JsError := { err_name : string; err_message : string }.

(** A value in flight after [throw]. *)
Inductive Exn : Type :=
| ExnHttp (e : HttpError)
| ExnError (e : JsError).

(** [error.name]; the constructor of [HttpError] sets it to the class name. *)
Definition exn_name (error : Exn) : string :=
  match error with
  | ExnHttp _ => "HttpError"
  | ExnError e => err_name e
  end.

(** [error instanceof HttpError]. *)
Definition instanceof_HttpError (error : Exn) : bool :=
  match error with
  | ExnHttp _ => true
  | ExnError _ => false
  end.

Definition TypeError (msg : string) : Exn :=
  ExnError {| err_name := "TypeError"; err_message := msg |}.

Definition ConditionalCheckFailedException : string :=
  "ConditionalCheckFailedException".

(** ** Commands and the console *)

Inductive CommandKind : Type :=
| GetItemCommand
| BatchGetItemCommand
| PutItemCommand
| BatchWriteItemCommand
| QueryCommand
| ScanCommand
| UpdateItemCommand
| DeleteItemCommand.

(** [new XCommand(params)]. *)
Record Command := { kind : CommandKind; input : JsObject }.

Inductive Stream : Type := StdOut | StdErr.

Inductive LogArg : Type :=
| LogError (error : Exn)
| LogValue (v : JsVal).

(** One call of [console.log] ([StdOut]) or [console.error] ([StdErr]). *)
Record LogLine := { stream : Stream; text : string; extra : list LogArg }.

(** ** Outcomes *)

Inductive Outcome (A : Type) : Type :=
| Returned (a : A)
| Thrown (error : Exn).

Arguments Returned {A} a.
Arguments Thrown {A} error.

(** The adapter object: the client is the parameter [send] below, the flag
    is [dev]. *)
Record DynamoDB := { dev : bool }.

(** ** Property access *)

(** An own property of an object; [undefined] when it is absent. *)
Definition own (m : JsObject) (k : string) : JsVal := default JUndefined (m !! k).

(** The names [Object.prototype] defines: eleven functions, and the
    accessor [__proto__]. *)
Definition object_prototype_names : list string :=
  [ "constructor"; "__defineGetter__"; "__defineSetter__"; "hasOwnProperty";
    "__lookupGetter__"; "__lookupSetter__"; "isPrototypeOf"; "propertyIsEnumerable";
    "toString"; "valueOf"; "__proto__"; "toLocaleString" ].

(** What a value without an own property [k] finds under [k]: the member
    of the prototype, a function or for [__proto__] the prototype itself,
    if the name is one of [Object.prototype]; [undefined] otherwise. *)
Definition inherited (k : string) : JsVal :=
  if existsb (String.eqb k) object_prototype_names then JBuiltin k else JUndefined.

(** [v[k]] and [v.k]: reading a property of [undefined] or [null] throws a
    [TypeError]; an own property wins over an inherited one; arrays and
    strings have indices and [length].  [JBuiltin "__proto__"] read from an
    object is [Object.prototype], whose own prototype is [null]. *)
Definition get_prop (v : JsVal) (k : string) : Outcome JsVal :=
  match v with
  | JUndefined | JNull => Thrown (TypeError "Cannot read properties of undefined or null")
  | JObj m =>
      Returned (match m !! k with
                | Some x => x
                | None => inherited k
                end)
  | JArr l =>
      Returned (if String.eqb k "length" then JNum (Z.of_nat (length l))
                else match parse_index k with
                     | Some i => match l !! i with
                                 | Some x => x
                                 | None => inherited k
                                 end
                     | None => inherited k
                     end)
  | JStr s =>
      Returned (if String.eqb k "length" then JNum (Z.of_nat (String.length s))
                else match parse_index k with
                     | Some i => match String.get i s with
                                 | Some c => JStr (String c EmptyString)
                                 | None => inherited k
                                 end
                     | None => inherited k
                     end)
  | JBool _ | JNum _ => Returned (inherited k)
  | JBuiltin name =>
      Returned (if String.eqb name "__proto__" && String.eqb k "__proto__" then JNull
                else inherited k)
  end.

(** ** The adapter *)

Section Adapter.

(** The remote service behind [this.client]: its state, and what sending
    a command does.  The client resolves with a response object or rejects
    with an [Error]. *)
Context {World : Type}.
Variable remote : Command → World → (JsError + JsObject) * World.

(** What a method runs in: the service, the commands sent so far (oldest
    first) and the lines written to the console. *)
Record State := { world : World; sent : list Command; console : list LogLine }.

Definition M (A : Type) : Type := State → Outcome A * State.

Definition ret {A} (a : A) : M A := λ st, (Returned a, st).

Definition throw {A} (error : Exn) : M A := λ st, (Thrown error, st).

Definition bind {A B} (c : M A) (k : A → M B) : M B :=
  λ st, match c st with
        | (Returned a, st') => k a st'
        | (Thrown error, st') => (Thrown error, st')
        end.

(** [try { body } catch (error) { handler }]. *)
Definition try_catch {A} (body : M A) (handler : Exn → M A) : M A :=
  λ st, match body st with
        | (Returned a, st') => (Returned a, st')
        | (Thrown error, st') => handler error st'
        end.

Definition lift {A} (o : Outcome A) : M A := λ st, (o, st).

Notation "'let!' x ':=' c 'in' k" := (bind c (λ x, k))
  (at level 10, x name, c at level 100, k at level 200).
Notation "'do!' c 'in' k" := (bind c (λ _, k))
  (at level 10, c at level 100, k at level 200).

(** [await this.client.send(command)]. *)
Definition client_send (command : Command) : M JsObject :=
  λ st, let '(r, w) := remote command (world st) in
        let st' := {| world := w; sent := sent st ++ [command]; console := console st |} in
        match r with
        | inr res => (Returned res, st')
        | inl error => (Thrown (ExnError error), st')
        end.

Definition console_write (line : LogLine) : M unit :=
  λ st, (Returned tt,
         {| world := world st; sent := sent st; console := console st ++ [line] |}).

Definition console_log (text : string) (extra : list LogArg) : M unit :=
  console_write {| stream := StdOut; text := text; extra := extra |}.

Definition console_error (text : string) (extra : list LogArg) : M unit :=
  console_write {| stream := StdErr; text := text; extra := extra |}.

(** [if (flag) statement]. *)
Definition when (flag : bool) (c : M unit) : M unit :=
  if flag then c else ret tt.

(** [throw new HttpError(message, statusCode)]. *)
Definition throw_http {A} (msg : string) (code : Z) : M A :=
  throw (ExnHttp {| message := msg; statusCode := code |}).

(** [array.map(f)] for a callback that may throw: the elements in order,
    stopping at the first throw. *)
Fixpoint map_elements (f : JsVal → Outcome JsVal) (l : list JsVal) : Outcome (list JsVal) :=
  match l with
  | [] => Returned []
  | x :: rest =>
      match f x with
      | Thrown error => Thrown error
      | Returned y =>
          match map_elements f rest with
          | Thrown error => Thrown error
          | Returned ys => Returned (y :: ys)
          end
      end
  end.

(** [v.map(f)]: [v] has to be an array. *)
Definition array_map (f : JsVal → Outcome JsVal) (v : JsVal) : Outcome (list JsVal) :=
  match v with
  | JArr l => map_elements f l
  | JUndefined | JNull => Thrown (TypeError "Cannot read properties of undefined or null")
  | _ => Thrown (TypeError "map is not a function")
  end.

(** [params.ConditionExpression = condition] under [if (condition)]. *)
Definition with_condition (condition : option string) (params : JsObject) : JsObject :=
  match condition with
  | Some c => if truthy_str condition then <["ConditionExpression" := JStr c]> params else params
  | None => params
  end.

(** *** set *)

Definition set_params (table : string) (item : JsVal) (condition : option string) : JsObject :=
  with_condition condition {[ "TableName" := JStr table; "Item" := item ]}.

Definition set (self : DynamoDB) (table : string) (item : JsVal)
    (condition : option string) : M JsVal :=
  let params := set_params table item condition in
  try_catch
    (let! _ := client_send {| kind := PutItemCommand; input := params |} in
     ret item)
    (λ error,
       if String.eqb (exn_name error) ConditionalCheckFailedException
       then do! when (dev self) (console_log "Item already exists in database" []) in
            throw_http "Item already exists in database" 409
       else do! when (dev self) (console_log "Error setting item in database: " [LogError error]) in
            throw_http "Error setting item in database" 500).

(** *** get *)

Definition get_params (table : string) (keys : JsVal) : JsObject :=
  {[ "TableName" := JStr table; "Key" := keys ]}.

Definition get (self : DynamoDB) (table : string) (keys : JsVal) : M JsVal :=
  let params := get_params table keys in
  try_catch
    (let! res := client_send {| kind := GetItemCommand; input := params |} in
     if negb (truthy (own res "Item"))
     then do! when (dev self) (console_log "Item not found in database" []) in
          throw_http "Item not found in database" 404
     else ret (own res "Item"))
    (λ error,
       do! when (dev self) (console_log "Error getting item from database: " [LogError error]) in
       if instanceof_HttpError error then throw error
       else throw_http "Error getting item from database" 500).

(** *** batchGet *)

(** The placeholders of a projection and the attribute names they stand
    for: [projection.split(',').map(...)] with its writes to
    [attributeNames]. *)
Definition projection_placeholders (projection : string) : list string :=
  (λ attr, "#" +:+ trim attr) <$> split_comma projection.

Definition projection_names (projection : string) : JsObject :=
  foldl (λ attributeNames attr,
           let trimmedAttr := trim attr in
           <["#" +:+ trimmedAttr := JStr trimmedAttr]> attributeNames)
        ∅ (split_comma projection).

Definition batchGet_params (table : string) (keys : JsVal)
    (projection : option string) : JsObject :=
  let request : JsObject := {[ "Keys" := keys ]} in
  let request :=
    match projection with
    | Some p =>
        if truthy_str projection
        then <["ExpressionAttributeNames" := JObj (projection_names p)]>
               (<["ProjectionExpression" := JStr (join ", " (projection_placeholders p))]>
                  request)
        else request
    | None => request
    end in
  {[ "RequestItems" := JObj {[ table := JObj request ]} ]}.

Definition batchGet (self : DynamoDB) (table : string) (keys : JsVal)
    (projection : option string) : M JsVal :=
  let params := batchGet_params table keys projection in
  try_catch
    (let! res := client_send {| kind := BatchGetItemCommand; input := params |} in
     lift (get_prop (own res "Responses") table))
    (λ error,
       do! when (dev self) (console_log "Error getting batch items from database: " [LogError error]) in
       throw_http "Error getting batch items from database" 500).

(** *** batchWrite *)

Definition batchWrite_params (table : string) (requests : JsVal) : JsObject :=
  {[ "RequestItems" := JObj {[ table := requests ]} ]}.

Definition batchWrite (self : DynamoDB) (table : string) (requests : JsVal) : M JsVal :=
  let params := batchWrite_params table requests in
  try_catch
    (let! res := client_send {| kind := BatchWriteItemCommand; input := params |} in
     let! unprocessed := lift (get_prop (own res "UnprocessedItems") table) in
     if truthy unprocessed
     then do! when (dev self) (console_log "Unprocessed items:" [LogValue unprocessed]) in
          throw_http "Items unprocessed during the batch writing" 500
     else do! when (dev self) (console_log "All items processed successfully" []) in
          ret (JObj res))
    (λ error,
       do! when (dev self) (console_log "Error batch writing items in database: " [LogError error]) in
       if instanceof_HttpError error then throw error
       else throw_http "Error batch writing items in database" 500).

(** *** update *)

Definition update_params (table : string) (keys : JsVal) (updateExpression : JsVal)
    (expressionAttributeNames expressionAttributeValues : JsVal)
    (condition : option string) (returnValues : option JsVal) : JsObject :=
  with_condition condition
    {[ "TableName" := JStr table;
       "Key" := keys;
       "UpdateExpression" := updateExpression;
       "ExpressionAttributeNames" := expressionAttributeNames;
       "ExpressionAttributeValues" := expressionAttributeValues;
       "ReturnValues" := default (JStr "ALL_NEW") returnValues ]}.

Definition update (self : DynamoDB) (table : string) (keys : JsVal)
    (updateExpression expressionAttributeNames expressionAttributeValues : JsVal)
    (condition : option string) (returnValues : option JsVal) : M JsVal :=
  let params := update_params table keys updateExpression expressionAttributeNames
                  expressionAttributeValues condition returnValues in
  try_catch
    (let! res := client_send {| kind := UpdateItemCommand; input := params |} in
     ret (JObj res))
    (λ error,
       if String.eqb (exn_name error) ConditionalCheckFailedException
       then do! when (dev self) (console_log "Condition not met for update operation" []) in
            throw_http "Condition not met for update operation" 404
       else do! when (dev self) (console_log "Error updating item in database: " [LogError error]) in
            throw_http "Error updating item in database" 500).

(** *** delete *)

Definition delete_params (table : string) (keys : JsVal) (condition : option string) : JsObject :=
  with_condition condition {[ "TableName" := JStr table; "Key" := keys ]}.

Definition delete (self : DynamoDB) (table : string) (keys : JsVal)
    (condition : option string) : M JsVal :=
  let params := delete_params table keys condition in
  try_catch
    (let! _ := client_send {| kind := DeleteItemCommand; input := params |} in
     ret keys)
    (λ error,
       if String.eqb (exn_name error) ConditionalCheckFailedException
       then do! when (dev self) (console_log "Condition not met for delete operation" []) in
            throw_http "Condition not met for delete operation" 404
       else do! when (dev self) (console_log "Error deleting item from database: " [LogError error]) in
            throw_http "Error deleting item from database" 500).

(** *** query, queryByGSI and scan *)

(** [Object.keys(o)].  JavaScript lists the keys in insertion order and
    the map in its own order; what is built from the keys below is a map
    again and does not depend on the order (see [names_of_keys_perm]). *)
Definition Object_keys (o : JsObject) : list string := (map_to_list o).*1.

(** The attribute names of [query] and [scan]: the placeholders
    [`#${key.slice(1)}`] of the keys, then for each placeholder, by its
    index, the entry [attributeNames[placeholder] = keys[index].slice(1)]. *)
Definition placeholder_names (keys : list string) : JsObject :=
  let placeholders := (λ key, "#" +:+ slice1 key) <$> keys in
  foldl (λ attributeNames entry,
           <[entry.2 := JStr (slice1 (default "" (keys !! entry.1)))]> attributeNames)
        ∅ (imap pair placeholders).

(** The attribute names of [queryByGSI]: for each key, in place,
    [names[`#${attributeName}`] = attributeName]. *)
Definition add_filter_names (names : JsObject) (keys : list string) : JsObject :=
  foldl (λ names key,
           let attributeName := slice1 key in
           <["#" +:+ attributeName := JStr attributeName]> names)
        names keys.

(** [filter && filterValues]: both given, and the filter not empty. *)
Definition filter_given (filter : option string) (filterValues : option JsObject) : bool :=
  truthy_str filter && bool_decide (is_Some filterValues).

(** The spread [{...keys, ...filterValues}]: on a key of both the later
    one wins; [∪] on maps prefers its left argument. *)
Definition query_params (table condition : string) (keys : JsObject)
    (filter : option string) (filterValues : option JsObject) : JsObject :=
  let params : JsObject :=
    {[ "TableName" := JStr table;
       "KeyConditionExpression" := JStr condition;
       "ExpressionAttributeValues" := JObj keys ]} in
  match filter, filterValues with
  | Some f, Some fv =>
      if filter_given filter filterValues
      then <["ExpressionAttributeNames" := JObj (placeholder_names (Object_keys fv))]>
             (<["FilterExpression" := JStr f]>
                (<["ExpressionAttributeValues" := JObj (fv ∪ keys)]> params))
      else params
  | _, _ => params
  end.

Definition query (self : DynamoDB) (table condition : string) (keys : JsObject)
    (filter : option string) (filterValues : option JsObject) : M JsVal :=
  let params := query_params table condition keys filter filterValues in
  try_catch
    (let! res := client_send {| kind := QueryCommand; input := params |} in
     ret (own res "Items"))
    (λ error,
       do! when (dev self) (console_log "Error querying item from database: " [LogError error]) in
       throw_http "Error querying item from database" 500).

Definition queryByGSI_params (table indexName condition : string)
    (attributeNames keys : JsObject)
    (filter : option string) (filterValues : option JsObject) : JsObject :=
  let params : JsObject :=
    {[ "TableName" := JStr table;
       "IndexName" := JStr indexName;
       "KeyConditionExpression" := JStr condition;
       "ExpressionAttributeNames" := JObj attributeNames;
       "ExpressionAttributeValues" := JObj keys ]} in
  match filter, filterValues with
  | Some f, Some fv =>
      if filter_given filter filterValues
      then <["ExpressionAttributeNames" :=
               JObj (add_filter_names attributeNames (Object_keys fv))]>
             (<["FilterExpression" := JStr f]>
                (<["ExpressionAttributeValues" := JObj (fv ∪ keys)]> params))
      else params
  | _, _ => params
  end.

Definition queryByGSI (self : DynamoDB) (table indexName condition : string)
    (attributeNames keys : JsObject)
    (filter : option string) (filterValues : option JsObject) : M JsVal :=
  let params := queryByGSI_params table indexName condition attributeNames keys
                  filter filterValues in
  try_catch
    (let! res := client_send {| kind := QueryCommand; input := params |} in
     ret (own res "Items"))
    (λ error,
       do! when (dev self) (console_error "Error querying by GSI:" [LogError error]) in
       throw_http "Error querying by GSI from database"
         (if String.eqb (exn_name error) ConditionalCheckFailedException then 400 else 500)).

Definition scan_params (table : string)
    (filter : option string) (filterValues : option JsObject) : JsObject :=
  let params : JsObject := {[ "TableName" := JStr table ]} in
  match filter, filterValues with
  | Some f, Some fv =>
      if filter_given filter filterValues
      then <["ExpressionAttributeNames" := JObj (placeholder_names (Object_keys fv))]>
             (<["ExpressionAttributeValues" := JObj fv]>
                (<["FilterExpression" := JStr f]> params))
      else params
  | _, _ => params
  end.

Definition scan (self : DynamoDB) (table : string)
    (filter : option string) (filterValues : option JsObject) : M JsVal :=
  try_catch
    (let params := scan_params table filter filterValues in
     let! res := client_send {| kind := ScanCommand; input := params |} in
     ret (own res "Items"))
    (λ error,
       do! when (dev self) (console_log "Error scanning item from database: " [LogError error]) in
       throw_http "Error scanning item from database" 500).

(** *** clearTable *)

(** The callback of [items.map]: [{DeleteRequest: {Key: {id: item.id}}}]. *)
Definition delete_request (item : JsVal) : Outcome JsVal :=
  match get_prop item "id" with
  | Returned id =>
      Returned (JObj {[ "DeleteRequest" := JObj {[ "Key" := JObj {[ "id" := id ]} ]} ]})
  | Thrown error => Thrown error
  end.

Definition clearTable (self : DynamoDB) (table : string) : M JsVal :=
  try_catch
    (let! res := client_send {| kind := ScanCommand;
                                input := {[ "TableName" := JStr table ]} |} in
     let items := own res "Items" in
     let! requests := lift (array_map delete_request items) in
     let! _ := batchWrite self table (JArr requests) in
     ret JUndefined)
    (λ error,
       do! when (dev self) (console_log "Error clearing table in database: " [LogError error]) in
       throw_http "Error clearing table in database" 500).

(** *** The methods as one family *)

(** A call of a method with its arguments. *)
Inductive Call : Type :=
| CallSet (table : string) (item : JsVal) (condition : option string)
| CallGet (table : string) (keys : JsVal)
| CallBatchGet (table : string) (keys : JsVal) (projection : option string)
| CallBatchWrite (table : string) (requests : JsVal)
| CallUpdate (table : string) (keys updateExpression : JsVal)
    (expressionAttributeNames expressionAttributeValues : JsVal)
    (condition : option string) (returnValues : option JsVal)
| CallDelete (table : string) (keys : JsVal) (condition : option string)
| CallQuery (table condition : string) (keys : JsObject)
    (filter : option string) (filterValues : option JsObject)
| CallQueryByGSI (table indexName condition : string) (attributeNames keys : JsObject)
    (filter : option string) (filterValues : option JsObject)
| CallScan (table : string) (filter : option string) (filterValues : option JsObject)
| CallClearTable (table : string).

Definition invoke (self : DynamoDB) (call : Call) : M JsVal :=
  match call with
  | CallSet table item condition => set self table item condition
  | CallGet table keys => get self table keys
  | CallBatchGet table keys projection => batchGet self table keys projection
  | CallBatchWrite table requests => batchWrite self table requests
  | CallUpdate table keys ue names values condition returnValues =>
      update self table keys ue names values condition returnValues
  | CallDelete table keys condition => delete self table keys condition
  | CallQuery table condition keys filter filterValues =>
      query self table condition keys filter filterValues
  | CallQueryByGSI table indexName condition names keys filter filterValues =>
      queryByGSI self table indexName condition names keys filter filterValues
  | CallScan table filter filterValues => scan self table filter filterValues
  | CallClearTable table => clearTable self table
  end.

End Adapter.

Arguments State : clear implicits.

(** ** Remote services to run the adapter against *)

(** A service without state that answers by the kind of the command. *)
Definition scripted_remote (answer : CommandKind → JsError + JsObject)
    : Command → unit → (JsError + JsObject) * unit :=
  λ command w, (answer (kind command), w).

(** A service that rejects every command with an error of the given name. *)
Definition failing_remote (name : string) : Command → unit → (JsError + JsObject) * unit :=
  scripted_remote (λ _, inl {| err_name := name; err_message := "rejected" |}).

(** A service that resolves every command with the same response. *)
Definition constant_remote (res : JsObject) : Command → unit → (JsError + JsObject) * unit :=
  scripted_remote (λ _, inr res).

(** A table of two items behind [ScanCommand]; batch writes leave nothing
    unprocessed. *)
Definition two_item_remote : Command → unit → (JsError + JsObject) * unit :=
  scripted_remote (λ k,
    match k with
    | ScanCommand =>
        inr {[ "Items" := JArr [ JObj {[ "id" := JObj {[ "S" := JStr "a" ]};
                                         "name" := JObj {[ "S" := JStr "X" ]} ]};
                                 JObj {[ "id" := JObj {[ "S" := JStr "b" ]} ]} ] ]}
    | _ => inr {[ "UnprocessedItems" := JObj ∅ ]}
    end).

(** The state before the first call. *)
Definition start : State unit := {| world := tt; sent := []; console := [] |}.

Definition http (msg : string) (code : Z) : Exn :=
  ExnHttp {| message := msg; statusCode := code |}.

(** ** Reference definitions *)

(** The attribute names the specification asks for: for each key [k] of
    the filter values, with [rest] the key without its first character,
    the entry ['#' + rest ↦ rest]. *)
Definition synthesized_names (filterValues : JsObject) : JsObject :=
  list_to_map ((λ k, ("#" +:+ slice1 k, JStr (slice1 k))) <$> elements (dom filterValues)).

(** The delete request of a scanned item: its key has the one attribute
    [id]. *)
Definition delete_request_of (item : JsObject) : JsVal :=
  JObj {[ "DeleteRequest" := JObj {[ "Key" := JObj {[ "id" := own item "id" ]} ]} ]}.

(** Two states that differ at most in the console. *)
Definition same_but_console {World : Type} (st1 st2 : State World) : Prop :=
  world st1 = world st2 ∧ sent st1 = sent st2.

(** A method that the flag and the console cannot steer: run by two
    adapters from states that differ at most in the console, it has the
    same outcome and leaves states that differ at most in the console;
    and with the flag off it leaves the console as it was. *)
Definition flag_only_logs {World : Type} (method : DynamoDB → M (World := World) JsVal) : Prop :=
  ∀ self1 self2 st1 st2,
    same_but_console st1 st2 →
    fst (method self1 st1) = fst (method self2 st2)
    ∧ same_but_console (snd (method self1 st1)) (snd (method self2 st2))
    ∧ (dev self1 = false → console (snd (method self1 st1)) = console st1).

(** The placeholder of a key. *)
#[local] Abbreviation placeholder := (λ k : string, "#" +:+ slice1 k).

(** The command a call sends first; for [clearTable] it is the scan. *)
Definition command_of (call : Call) : Command :=
  match call with
  | CallSet table item condition =>
      {| kind := PutItemCommand; input := set_params table item condition |}
  | CallGet table keys =>
      {| kind := GetItemCommand; input := get_params table keys |}
  | CallBatchGet table keys projection =>
      {| kind := BatchGetItemCommand; input := batchGet_params table keys projection |}
  | CallBatchWrite table requests =>
      {| kind := BatchWriteItemCommand; input := batchWrite_params table requests |}
  | CallUpdate table keys updateExpression names values condition returnValues =>
      {| kind := UpdateItemCommand;
         input := update_params table keys updateExpression names values
                    condition returnValues |}
  | CallDelete table keys condition =>
      {| kind := DeleteItemCommand; input := delete_params table keys condition |}
  | CallQuery table condition keys filter filterValues =>
      {| kind := QueryCommand;
         input := query_params table condition keys filter filterValues |}
  | CallQueryByGSI table indexName condition names keys filter filterValues =>
      {| kind := QueryCommand;
         input := queryByGSI_params table indexName condition names keys
                    filter filterValues |}
  | CallScan table filter filterValues =>
      {| kind := ScanCommand; input := scan_params table filter filterValues |}
  | CallClearTable table =>
      {| kind := ScanCommand; input := {[ "TableName" := JStr table ]} |}
  end.

(** The status codes found in the handlers of each method. *)
Definition status_codes (call : Call) : list Z :=
  match call with
  | CallSet _ _ _ => [409; 500]
  | CallGet _ _ => [404; 500]
  | CallUpdate _ _ _ _ _ _ _ => [404; 500]
  | CallDelete _ _ _ => [404; 500]
  | CallQueryByGSI _ _ _ _ _ _ _ => [400; 500]
  | _ => [500]
  end%Z.

(** What the methods other than [batchWrite], and [clearTable] through it,
    write to the console when they return: nothing.  [batchWrite] reports
    its success when the flag is on. *)
Definition success_lines (self : DynamoDB) (call : Call) : list LogLine :=
  match call with
  | CallBatchWrite _ _ | CallClearTable _ =>
      if dev self
      then [{| stream := StdOut; text := "All items processed successfully"; extra := [] |}]
      else []
  | _ => []
  end.

(** [scan] of the whole table, the delete requests of its items, and
    [batchWrite] of them, one after the other. *)
Definition scan_then_batchWrite {World : Type}
    (remote : Command → World → (JsError + JsObject) * World)
    (self : DynamoDB) (table : string) : M (World := World) JsVal :=
  bind (scan remote self table None None) (λ items,
  bind (lift (array_map delete_request items)) (λ requests,
  batchWrite remote self table (JArr requests))).

(** ** Proof steps *)

(** Unfolds the monad down to the call of the remote service. *)
Ltac run :=
  unfold try_catch, bind, client_send, when, console_log, console_error,
    console_write, throw_http, throw, ret, lift; simpl.

(** Reads a field of a parameter object built by assignments. *)
Ltac read_field :=
  repeat (rewrite lookup_insert_ne by done); by rewrite lookup_insert_eq.

(** ** The embedding on small inputs *)

Example slice1_sigil : slice1 ":name" = "name" ∧ slice1 "" = "".
Proof. split; reflexivity. Qed.

Example parse_index_canonical :
  parse_index "12" = Some 12 ∧ parse_index "0" = Some 0
  ∧ parse_index "012" = None ∧ parse_index "id" = None.
Proof. repeat split; reflexivity. Qed.

Example projection_expression :
  join ", " (projection_placeholders "id, name ,age") = "#id, #name, #age".
Proof. reflexivity. Qed.

Example placeholder_names_two_keys :
  placeholder_names [":name"; ":age"] = {[ "#name" := JStr "name"; "#age" := JStr "age" ]}.
Proof. vm_compute. reflexivity. Qed.

Example set_returns_item :
  fst (set (constant_remote ∅) {| dev := false |} "test"
         (JObj {[ "id" := JObj {[ "S" := JStr "test1" ]} ]}) None start)
    = Returned (JObj {[ "id" := JObj {[ "S" := JStr "test1" ]} ]}).
Proof. reflexivity. Qed.

Example get_returns_item :
  fst (get (constant_remote {[ "Item" := JObj {[ "id" := JObj {[ "S" := JStr "test1" ]} ]} ]})
         {| dev := false |} "test" (JObj {[ "id" := JObj {[ "S" := JStr "test1" ]} ]}) start)
    = Returned (JObj {[ "id" := JObj {[ "S" := JStr "test1" ]} ]}).
Proof. vm_compute. reflexivity. Qed.

Example clearTable_returns_undefined :
  fst (clearTable two_item_remote {| dev := false |} "test" start) = Returned JUndefined.
Proof. vm_compute. reflexivity. Qed.

(** ** Error normalization *)

Section ErrorNormalization.

Context {World : Type}.
Variable remote : Command → World → (JsError + JsObject) * World.

(** C1. When the send of [set] is rejected, [set] throws an [HttpError]:
    with status 409 if the name of the error is
    ['ConditionalCheckFailedException'], with status 500 otherwise.  It
    does not return. *)
Theorem set_rejected (self : DynamoDB) (table : string) (item : JsVal)
    (condition : option string) (st : State World) (error : JsError) (w : World) :
  remote {| kind := PutItemCommand; input := set_params table item condition |} (world st)
    = (inl error, w) →
  fst (set remote self table item condition st)
    = Thrown (if String.eqb (err_name error) "ConditionalCheckFailedException"
              then http "Item already exists in database" 409
              else http "Error setting item in database" 500).
Proof.
  intros Hsend. unfold set. run. rewrite Hsend. simpl.
  unfold ConditionalCheckFailedException.
  destruct (String.eqb (err_name error) _); destruct (dev self); reflexivity.
Qed.

(** C2. When the send of [get] resolves with a response without an item,
    [get] throws the [HttpError] with status 404 made in the [try] block:
    the handler rethrows it as it is.  When the send is rejected, [get]
    throws an [HttpError] with status 500. *)
Theorem get_missing_or_rejected (self : DynamoDB) (table : string) (keys : JsVal)
    (st : State World) :
  let command := {| kind := GetItemCommand; input := get_params table keys |} in
  (∀ res w, remote command (world st) = (inr res, w) →
            truthy (own res "Item") = false →
            fst (get remote self table keys st)
              = Thrown (http "Item not found in database" 404))
  ∧ (∀ error w, remote command (world st) = (inl error, w) →
                fst (get remote self table keys st)
                  = Thrown (http "Error getting item from database" 500)).
Proof.
  simpl. split.
  - intros res w Hsend Hitem. unfold get. run. rewrite Hsend. simpl.
    rewrite Hitem. simpl. destruct (dev self); reflexivity.
  - intros error w Hsend. unfold get. run. rewrite Hsend. simpl.
    destruct (dev self); reflexivity.
Qed.

(** C3. When the send of [update] or of [delete] is rejected, the method
    throws an [HttpError]: with status 404 if the name of the error is
    ['ConditionalCheckFailedException'], with status 500 otherwise. *)
Theorem update_delete_rejected (self : DynamoDB) (table : string)
    (keys updateExpression names values : JsVal)
    (condition : option string) (returnValues : option JsVal) (st : State World) :
  (∀ error w,
     remote {| kind := UpdateItemCommand;
               input := update_params table keys updateExpression names values
                          condition returnValues |} (world st) = (inl error, w) →
     fst (update remote self table keys updateExpression names values
            condition returnValues st)
       = Thrown (if String.eqb (err_name error) "ConditionalCheckFailedException"
                 then http "Condition not met for update operation" 404
                 else http "Error updating item in database" 500))
  ∧ (∀ error w,
       remote {| kind := DeleteItemCommand;
                 input := delete_params table keys condition |} (world st) = (inl error, w) →
       fst (delete remote self table keys condition st)
         = Thrown (if String.eqb (err_name error) "ConditionalCheckFailedException"
                   then http "Condition not met for delete operation" 404
                   else http "Error deleting item from database" 500)).
Proof.
  split; intros error w Hsend.
  - unfold update. run. rewrite Hsend. simpl. unfold ConditionalCheckFailedException.
    destruct (String.eqb (err_name error) _); destruct (dev self); reflexivity.
  - unfold delete. run. rewrite Hsend. simpl. unfold ConditionalCheckFailedException.
    destruct (String.eqb (err_name error) _); destruct (dev self); reflexivity.
Qed.

(** C4. [batchWrite] sends its command once and never again.  When the
    response has a truthy entry for the table under [UnprocessedItems], it
    throws the [HttpError] with status 500 made in the [try] block, which
    the handler rethrows as it is; when the send is rejected it throws an
    [HttpError] with status 500; and whatever it throws is an [HttpError]
    with status 500. *)
Theorem batchWrite_failures (self : DynamoDB) (table : string) (requests : JsVal)
    (st : State World) :
  let command := {| kind := BatchWriteItemCommand;
                    input := batchWrite_params table requests |} in
  sent (snd (batchWrite remote self table requests st)) = (sent st ++ [command])%list
  ∧ (∀ res w unprocessed,
       remote command (world st) = (inr res, w) →
       get_prop (own res "UnprocessedItems") table = Returned unprocessed →
       truthy unprocessed = true →
       fst (batchWrite remote self table requests st)
         = Thrown (http "Items unprocessed during the batch writing" 500))
  ∧ (∀ error w,
       remote command (world st) = (inl error, w) →
       fst (batchWrite remote self table requests st)
         = Thrown (http "Error batch writing items in database" 500))
  ∧ (∀ thrown,
       fst (batchWrite remote self table requests st) = Thrown thrown →
       ∃ msg, thrown = http msg 500).
Proof.
  simpl. unfold batchWrite. run.
  destruct (remote _ (world st)) as [[error|res] w] eqn:Hsend; simpl.
  - destruct (dev self); simpl; repeat split; try congruence.
    all: intros thrown [= <-]; eauto.
  - destruct (get_prop (own res "UnprocessedItems") table) as [u|e] eqn:Hu; simpl.
    + destruct (truthy u) eqn:Ht; destruct (dev self); simpl; repeat split;
        try congruence; try (intros ? ? ? [= <- <-] [= <-]; congruence);
        try (intros thrown [= <-]; eauto).
    + assert (instanceof_HttpError e = false) as He.
      { unfold get_prop in Hu. destruct (own res "UnprocessedItems"); by inversion Hu. }
      destruct (dev self); simpl; rewrite He; simpl; repeat split;
        try congruence; try (intros thrown [= <-]; eauto).
Qed.

(** C5. When the send of [queryByGSI] is rejected, the method throws an
    [HttpError] with status 500, except that the status is 400 if the name
    of the error is ['ConditionalCheckFailedException']. *)
Theorem queryByGSI_rejected (self : DynamoDB) (table indexName condition : string)
    (attributeNames keys : JsObject) (filter : option string)
    (filterValues : option JsObject) (st : State World) (error : JsError) (w : World) :
  remote {| kind := QueryCommand;
            input := queryByGSI_params table indexName condition attributeNames keys
                       filter filterValues |} (world st) = (inl error, w) →
  fst (queryByGSI remote self table indexName condition attributeNames keys
         filter filterValues st)
    = Thrown (http "Error querying by GSI from database"
                (if String.eqb (err_name error) "ConditionalCheckFailedException"
                 then 400 else 500)).
Proof.
  intros Hsend. unfold queryByGSI. run. rewrite Hsend. simpl.
  destruct (dev self); reflexivity.
Qed.

End ErrorNormalization.

Lemma set_rejected_witness :
  fst (set (failing_remote "ConditionalCheckFailedException") {| dev := true |}
         "test" (JObj {[ "id" := JObj {[ "S" := JStr "test2" ]} ]})
         (Some "attribute_not_exists(id)") start)
    = Thrown (http "Item already exists in database" 409).
Proof.
  apply (set_rejected (failing_remote "ConditionalCheckFailedException") _ _ _ _ start
           {| err_name := "ConditionalCheckFailedException"; err_message := "rejected" |} tt).
  reflexivity.
Defined.

Lemma get_missing_or_rejected_witness :
  fst (get (constant_remote ∅) {| dev := true |} "test"
         (JObj {[ "id" := JObj {[ "S" := JStr "test3" ]} ]}) start)
    = Thrown (http "Item not found in database" 404)
  ∧ fst (get (failing_remote "TimeoutError") {| dev := true |} "test"
           (JObj {[ "id" := JObj {[ "S" := JStr "test3" ]} ]}) start)
      = Thrown (http "Error getting item from database" 500).
Proof.
  split.
  - apply (proj1 (get_missing_or_rejected (constant_remote ∅) _ _ _ start) ∅ tt);
      reflexivity.
  - apply (proj2 (get_missing_or_rejected (failing_remote "TimeoutError") _ _ _ start)
             {| err_name := "TimeoutError"; err_message := "rejected" |} tt).
    reflexivity.
Defined.

Lemma update_delete_rejected_witness :
  fst (update (failing_remote "ConditionalCheckFailedException") {| dev := false |} "test"
         (JObj {[ "id" := JObj {[ "S" := JStr "a" ]} ]})
         (JStr "SET #name = :name")
         (JObj {[ "#name" := JStr "name" ]})
         (JObj {[ ":name" := JObj {[ "S" := JStr "Y" ]} ]})
         (Some "attribute_exists(id)") None start)
    = Thrown (http "Condition not met for update operation" 404)
  ∧ fst (delete (failing_remote "ThrottlingException") {| dev := false |} "test"
           (JObj {[ "id" := JObj {[ "S" := JStr "a" ]} ]}) None start)
      = Thrown (http "Error deleting item from database" 500).
Proof.
  split.
  - apply (proj1 (update_delete_rejected (failing_remote "ConditionalCheckFailedException")
                    _ _ _ _ _ _ _ _ start)
             {| err_name := "ConditionalCheckFailedException"; err_message := "rejected" |} tt).
    reflexivity.
  - apply (proj2 (update_delete_rejected (failing_remote "ThrottlingException")
                    {| dev := false |} "test" (JObj {[ "id" := JObj {[ "S" := JStr "a" ]} ]})
                    JUndefined JUndefined JUndefined None None start)
             {| err_name := "ThrottlingException"; err_message := "rejected" |} tt).
    reflexivity.
Defined.

Lemma batchWrite_failures_witness :
  let requests :=
    JArr [JObj {[ "DeleteRequest" :=
                    JObj {[ "Key" := JObj {[ "id" := JObj {[ "S" := JStr "test2" ]} ]} ]} ]}] in
  fst (batchWrite
         (constant_remote {[ "UnprocessedItems" := JObj {[ "test" := requests ]} ]})
         {| dev := true |} "test" requests start)
    = Thrown (http "Items unprocessed during the batch writing" 500)
  ∧ fst (batchWrite (failing_remote "TimeoutError") {| dev := true |} "test" requests start)
      = Thrown (http "Error batch writing items in database" 500)
  ∧ ∃ msg, http "Items unprocessed during the batch writing" 500 = http msg 500.
Proof.
  intros requests.
  pose proof (batchWrite_failures
                (constant_remote {[ "UnprocessedItems" := JObj {[ "test" := requests ]} ]})
                {| dev := true |} "test" requests start) as (_ & Hunprocessed & _ & Hthrown).
  pose proof (batchWrite_failures (failing_remote "TimeoutError")
                {| dev := true |} "test" requests start) as (_ & _ & Hrejected & _).
  assert (fst (batchWrite
                 (constant_remote {[ "UnprocessedItems" := JObj {[ "test" := requests ]} ]})
                 {| dev := true |} "test" requests start)
          = Thrown (http "Items unprocessed during the batch writing" 500)) as Hrun.
  { apply (Hunprocessed {[ "UnprocessedItems" := JObj {[ "test" := requests ]} ]} tt requests);
      reflexivity. }
  split; [exact Hrun|]. split.
  - apply (Hrejected {| err_name := "TimeoutError"; err_message := "rejected" |} tt).
    reflexivity.
  - exact (Hthrown _ Hrun).
Defined.

Lemma queryByGSI_rejected_witness :
  fst (queryByGSI (failing_remote "ConditionalCheckFailedException") {| dev := false |}
         "test" "name-index" "#name = :name" {[ "#name" := JStr "name" ]}
         {[ ":name" := JObj {[ "S" := JStr "John" ]} ]} None None start)
    = Thrown (http "Error querying by GSI from database" 400).
Proof.
  apply (queryByGSI_rejected (failing_remote "ConditionalCheckFailedException")
           _ _ _ _ _ _ _ _ start
           {| err_name := "ConditionalCheckFailedException"; err_message := "rejected" |} tt).
  reflexivity.
Defined.

(** ** Request construction *)

Section RequestConstruction.

Implicit Types (names filterValues keys : JsObject) (ks : list string) (p : string).

Lemma slice1_placeholder (k : string) : slice1 (placeholder k) = slice1 k.
Proof. reflexivity. Qed.

(** What [queryByGSI] builds, read at one name: a placeholder of a key
    maps to its name without the ['#']; every other name is as before. *)
Lemma add_filter_names_lookup names ks p :
  add_filter_names names ks !! p
    = if bool_decide (p ∈ placeholder <$> ks) then Some (JStr (slice1 p)) else names !! p.
Proof.
  revert names. induction ks as [|k ks IH]; intros names.
  - done.
  - unfold add_filter_names in *. simpl. rewrite IH.
    destruct (decide (p ∈ placeholder <$> ks)) as [Hin|Hnin].
    + rewrite !bool_decide_eq_true_2; [done | by apply elem_of_cons; right | done].
    + rewrite (bool_decide_eq_false_2 _ Hnin).
      destruct (decide (p = placeholder k)) as [->|Hne].
      * rewrite lookup_insert_eq, bool_decide_eq_true_2; [done | by apply elem_of_cons; left].
      * rewrite lookup_insert_ne by done.
        rewrite bool_decide_eq_false_2; [done|].
        intros [?|?]%elem_of_cons; done.
Qed.

(** The order of the keys does not matter. *)
Lemma names_of_keys_perm names ks ks' :
  ks ≡ₚ ks' → add_filter_names names ks = add_filter_names names ks'.
Proof.
  intros Hperm. apply map_eq. intros p. rewrite !add_filter_names_lookup.
  assert (p ∈ placeholder <$> ks ↔ p ∈ placeholder <$> ks') as Hiff.
  { by rewrite Hperm. }
  destruct (decide (p ∈ placeholder <$> ks)) as [Hin|Hnin].
  - rewrite !bool_decide_eq_true_2; [done | by apply Hiff | done].
  - rewrite !bool_decide_eq_false_2; [done | by rewrite <- Hiff | done].
Qed.

(** The write by index of [query] and [scan] reads the key the placeholder
    was made from. *)
Lemma placeholder_fold_shift (full : list string) (n : nat) ks names :
  (∀ i k, ks !! i = Some k → full !! (n + i) = Some k) →
  foldl (λ attributeNames entry,
           <[entry.2 := JStr (slice1 (default "" (full !! entry.1)))]> attributeNames)
        names (imap (λ i q, (n + i, q)) (placeholder <$> ks))
    = add_filter_names names ks.
Proof.
  revert n names. induction ks as [|k ks IH]; intros n names Hfull; [done|].
  unfold add_filter_names. simpl.
  rewrite (Hfull 0 k eq_refl). simpl.
  erewrite imap_ext; [apply (IH (S n))|].
  - intros i k' Hk'. replace (S n + i) with (n + S i) by lia. by apply Hfull.
  - intros i q _. simpl. f_equal. lia.
Qed.

Lemma placeholder_names_add ks : placeholder_names ks = add_filter_names ∅ ks.
Proof.
  unfold placeholder_names. apply (placeholder_fold_shift ks 0 ks ∅).
  intros i k Hk. done.
Qed.

Lemma elem_of_Object_keys filterValues (k : string) :
  k ∈ Object_keys filterValues ↔ is_Some (filterValues !! k).
Proof.
  unfold Object_keys. rewrite list_elem_of_fmap. split.
  - intros [[k' v] [-> Hin%elem_of_map_to_list]]. by exists v.
  - intros [v Hv]. exists (k, v). split; [done | by apply elem_of_map_to_list].
Qed.

Lemma synthesized_names_lookup_total filterValues p :
  synthesized_names filterValues !! p
    = if bool_decide (p ∈ placeholder <$> elements (dom filterValues))
      then Some (JStr (slice1 p)) else None.
Proof.
  unfold synthesized_names. induction (elements (dom filterValues)) as [|k ks IH].
  - done.
  - rewrite fmap_cons. simpl list_to_map. destruct (decide (p = placeholder k)) as [->|Hne].
    + rewrite lookup_insert_eq, bool_decide_eq_true_2; [done | by apply elem_of_cons; left].
    + rewrite lookup_insert_ne by done. rewrite IH.
      destruct (decide (p ∈ placeholder <$> ks)) as [Hin|Hnin].
      * rewrite !bool_decide_eq_true_2; [done | by apply elem_of_cons; right | done].
      * rewrite !bool_decide_eq_false_2; [done | | done].
        intros [?|?]%elem_of_cons; done.
Qed.

(** The reference definition read at one name: exactly the entries
    ['#' + rest ↦ rest] of the keys. *)
Lemma synthesized_names_lookup filterValues p (v : JsVal) :
  synthesized_names filterValues !! p = Some v
  ↔ ∃ k, is_Some (filterValues !! k) ∧ p = "#" +:+ slice1 k ∧ v = JStr (slice1 k).
Proof.
  rewrite synthesized_names_lookup_total. split.
  - case_bool_decide as Hin; [|done]. intros [= <-].
    apply list_elem_of_fmap in Hin as [k [-> Hk]].
    exists k. split; [|done]. by apply elem_of_dom, elem_of_elements.
  - intros (k & Hk & -> & ->). rewrite bool_decide_eq_true_2; [done|].
    apply list_elem_of_fmap. exists k. split; [done|].
    by apply elem_of_elements, elem_of_dom.
Qed.

(** What the code builds is the reference definition, laid over the names
    of the caller. *)
Lemma add_filter_names_synthesized names filterValues :
  add_filter_names names (Object_keys filterValues) = synthesized_names filterValues ∪ names.
Proof.
  apply map_eq. intros p.
  rewrite add_filter_names_lookup, lookup_union, synthesized_names_lookup_total.
  assert (p ∈ placeholder <$> Object_keys filterValues
          ↔ p ∈ placeholder <$> elements (dom filterValues)) as Hiff.
  { rewrite !list_elem_of_fmap. split; intros [k [-> Hk]]; exists k; (split; [done|]).
    - by apply elem_of_elements, elem_of_dom, elem_of_Object_keys.
    - by apply elem_of_Object_keys, elem_of_dom, elem_of_elements. }
  destruct (decide (p ∈ placeholder <$> Object_keys filterValues)) as [Hin|Hnin].
  - rewrite !bool_decide_eq_true_2; [|by apply Hiff|done].
    by destruct (names !! p).
  - rewrite !bool_decide_eq_false_2; [|by rewrite <- Hiff|done].
    by destruct (names !! p).
Qed.

Lemma placeholder_names_synthesized filterValues :
  placeholder_names (Object_keys filterValues) = synthesized_names filterValues.
Proof.
  rewrite placeholder_names_add, add_filter_names_synthesized.
  apply (right_id_L ∅ (∪)).
Qed.

End RequestConstruction.

(** ** What the query methods send *)

Section QueryRequests.

Context {World : Type}.
Variable remote : Command → World → (JsError + JsObject) * World.

Lemma query_sends_once (self : DynamoDB) (table condition : string) (keys : JsObject)
    (filter : option string) (filterValues : option JsObject) (st : State World) :
  sent (snd (query remote self table condition keys filter filterValues st))
    = (sent st ++ [{| kind := QueryCommand;
                      input := query_params table condition keys filter filterValues |}])%list.
Proof.
  unfold query. run. destruct (remote _ (world st)) as [[error|res] w]; simpl; [|done].
  by destruct (dev self).
Qed.

Lemma queryByGSI_sends_once (self : DynamoDB) (table indexName condition : string)
    (attributeNames keys : JsObject)
    (filter : option string) (filterValues : option JsObject) (st : State World) :
  sent (snd (queryByGSI remote self table indexName condition attributeNames keys
               filter filterValues st))
    = (sent st ++ [{| kind := QueryCommand;
                      input := queryByGSI_params table indexName condition attributeNames
                                 keys filter filterValues |}])%list.
Proof.
  unfold queryByGSI. run. destruct (remote _ (world st)) as [[error|res] w]; simpl; [|done].
  by destruct (dev self).
Qed.

Lemma scan_sends_once (self : DynamoDB) (table : string)
    (filter : option string) (filterValues : option JsObject) (st : State World) :
  sent (snd (scan remote self table filter filterValues st))
    = (sent st ++ [{| kind := ScanCommand;
                      input := scan_params table filter filterValues |}])%list.
Proof.
  unfold scan. run. destruct (remote _ (world st)) as [[error|res] w]; simpl; [|done].
  by destruct (dev self).
Qed.

Lemma filter_given_some (f : string) (filterValues : JsObject) :
  f ≠ "" → filter_given (Some f) (Some filterValues) = true.
Proof.
  intros Hf. unfold filter_given. simpl.
  destruct (String.eqb_spec f ""); done.
Qed.

(** C6, amended.  When filter values come with a filter expression that
    is not empty, the command sent by [query], [queryByGSI] and [scan]
    carries as attribute names the entries ['#' + rest ↦ rest], one for
    each key of the filter values, [rest] being the key without its first
    character; in [queryByGSI] they are laid over the names of the
    caller.  The attribute values are the key values together with the
    filter values ([scan] has no key values: there they are the filter
    values). *)
Theorem filter_names_and_values (self : DynamoDB) (table indexName condition : string)
    (attributeNames keys filterValues : JsObject) (f : string) (st : State World) :
  f ≠ "" →
  (∃ params,
     sent (snd (query remote self table condition keys (Some f) (Some filterValues) st))
       = (sent st ++ [{| kind := QueryCommand; input := params |}])%list
     ∧ params !! "ExpressionAttributeNames" = Some (JObj (synthesized_names filterValues))
     ∧ params !! "ExpressionAttributeValues" = Some (JObj (filterValues ∪ keys)))
  ∧ (∃ params,
       sent (snd (queryByGSI remote self table indexName condition attributeNames keys
                    (Some f) (Some filterValues) st))
         = (sent st ++ [{| kind := QueryCommand; input := params |}])%list
       ∧ params !! "ExpressionAttributeNames"
           = Some (JObj (synthesized_names filterValues ∪ attributeNames))
       ∧ params !! "ExpressionAttributeValues" = Some (JObj (filterValues ∪ keys)))
  ∧ (∃ params,
       sent (snd (scan remote self table (Some f) (Some filterValues) st))
         = (sent st ++ [{| kind := ScanCommand; input := params |}])%list
       ∧ params !! "ExpressionAttributeNames" = Some (JObj (synthesized_names filterValues))
       ∧ params !! "ExpressionAttributeValues" = Some (JObj filterValues))
  ∧ (∀ p v, synthesized_names filterValues !! p = Some v
            ↔ ∃ k, is_Some (filterValues !! k) ∧ p = "#" +:+ slice1 k ∧ v = JStr (slice1 k)).
Proof.
  intros Hf. pose proof (filter_given_some f filterValues Hf) as Hgiven.
  repeat split.
  - eexists. split; [apply query_sends_once|].
    unfold query_params. rewrite Hgiven, placeholder_names_synthesized.
    split; [read_field|].
    read_field.
  - eexists. split; [apply queryByGSI_sends_once|].
    unfold queryByGSI_params. rewrite Hgiven, add_filter_names_synthesized.
    split; [read_field|].
    read_field.
  - eexists. split; [apply scan_sends_once|].
    unfold scan_params. rewrite Hgiven, placeholder_names_synthesized.
    split; [read_field|].
    read_field.
  - by apply synthesized_names_lookup.
  - by apply synthesized_names_lookup.
Qed.

(** C9.  [query], [queryByGSI] and [scan] send one command.  It carries
    the filter expression when the filter and the filter values are both
    given; when one of them is missing, the other is dropped: the command
    has the parameters of a call without a filter, with no filter
    expression, the key values alone as attribute values and no attribute
    names but those of the caller. *)
Theorem filter_needs_both (self : DynamoDB) (table indexName condition : string)
    (attributeNames keys : JsObject) (filter : option string)
    (filterValues : option JsObject) (st : State World) :
  let q := query_params table condition keys filter filterValues in
  let g := queryByGSI_params table indexName condition attributeNames keys
             filter filterValues in
  let s := scan_params table filter filterValues in
  (sent (snd (query remote self table condition keys filter filterValues st))
     = (sent st ++ [{| kind := QueryCommand; input := q |}])%list
   ∧ sent (snd (queryByGSI remote self table indexName condition attributeNames keys
                  filter filterValues st))
       = (sent st ++ [{| kind := QueryCommand; input := g |}])%list
   ∧ sent (snd (scan remote self table filter filterValues st))
       = (sent st ++ [{| kind := ScanCommand; input := s |}])%list)
  ∧ (filter_given filter filterValues = true →
     q !! "FilterExpression" = JStr <$> filter
     ∧ g !! "FilterExpression" = JStr <$> filter
     ∧ s !! "FilterExpression" = JStr <$> filter)
  ∧ (filter_given filter filterValues = false →
     q = {[ "TableName" := JStr table;
            "KeyConditionExpression" := JStr condition;
            "ExpressionAttributeValues" := JObj keys ]}
     ∧ g = {[ "TableName" := JStr table;
              "IndexName" := JStr indexName;
              "KeyConditionExpression" := JStr condition;
              "ExpressionAttributeNames" := JObj attributeNames;
              "ExpressionAttributeValues" := JObj keys ]}
     ∧ s = {[ "TableName" := JStr table ]}).
Proof.
  simpl. split; [|split].
  - split; [apply query_sends_once|].
    split; [apply queryByGSI_sends_once | apply scan_sends_once].
  - intros Hgiven. unfold query_params, queryByGSI_params, scan_params.
    destruct filter as [f|]; [|done].
    destruct filterValues as [fv|];
      [|by unfold filter_given in Hgiven; rewrite andb_comm in Hgiven].
    rewrite Hgiven. simpl.
    split; [|split].
    + read_field.
    + read_field.
    + read_field.
  - intros Hgiven. unfold query_params, queryByGSI_params, scan_params.
    destruct filter as [f|]; [|done]. destruct filterValues as [fv|]; [|done].
    by rewrite Hgiven.
Qed.

End QueryRequests.

(** C6 as it was stated fails: filter values given without a filter
    expression are not turned into attribute names, and do not reach the
    attribute values, although the map of filter values is not empty. *)
Lemma filter_names_and_values_counterexample :
  let keys : JsObject := {[ ":id" := JObj {[ "S" := JStr "test1" ]} ]} in
  let filterValues : JsObject := {[ ":name" := JObj {[ "S" := JStr "John" ]} ]} in
  let params := query_params "test" "id = :id" keys None (Some filterValues) in
  filterValues ≠ ∅
  ∧ sent (snd (query (constant_remote ∅) {| dev := false |} "test" "id = :id" keys
                 None (Some filterValues) start))
      = [{| kind := QueryCommand; input := params |}]
  ∧ params !! "ExpressionAttributeNames" = None
  ∧ params !! "ExpressionAttributeNames" ≠ Some (JObj (synthesized_names filterValues))
  ∧ params !! "ExpressionAttributeValues" = Some (JObj keys)
  ∧ params !! "ExpressionAttributeValues" ≠ Some (JObj (filterValues ∪ keys)).
Proof.
  intros keys filterValues params.
  assert (params !! "ExpressionAttributeNames" = None) as Hnames by (vm_compute; reflexivity).
  assert (params !! "ExpressionAttributeValues" = Some (JObj keys)) as Hvalues
    by (vm_compute; reflexivity).
  split; [|split; [|split; [|split; [|split]]]].
  - intros Hempty. apply (f_equal (λ m : JsObject, m !! ":name")) in Hempty.
    vm_compute in Hempty. discriminate.
  - apply (query_sends_once (constant_remote ∅)).
  - exact Hnames.
  - rewrite Hnames. discriminate.
  - exact Hvalues.
  - rewrite Hvalues. intros Hunion.
    assert (keys !! ":name" = (filterValues ∪ keys) !! ":name") as Hlookup by congruence.
    vm_compute in Hlookup. discriminate.
Qed.

Lemma filter_names_and_values_witness :
  let keys : JsObject := {[ ":id" := JObj {[ "S" := JStr "test1" ]} ]} in
  let filterValues : JsObject := {[ ":name" := JObj {[ "S" := JStr "John" ]} ]} in
  ∃ params,
    sent (snd (query (constant_remote ∅) {| dev := false |} "test" "id = :id" keys
                 (Some "#name = :name") (Some filterValues) start))
      = [{| kind := QueryCommand; input := params |}]
    ∧ params !! "ExpressionAttributeNames" = Some (JObj (synthesized_names filterValues))
    ∧ params !! "ExpressionAttributeValues" = Some (JObj (filterValues ∪ keys)).
Proof.
  intros keys filterValues.
  assert ("#name = :name" ≠ "") as Hfilter by discriminate.
  exact (proj1 (filter_names_and_values (constant_remote ∅) {| dev := false |}
                  "test" "name-index" "id = :id" ∅ keys filterValues "#name = :name"
                  start Hfilter)).
Defined.

Lemma filter_needs_both_witness :
  let keys : JsObject := {[ ":id" := JObj {[ "S" := JStr "test1" ]} ]} in
  let filterValues : JsObject := {[ ":name" := JObj {[ "S" := JStr "John" ]} ]} in
  query_params "test" "id = :id" keys (Some "#name = :name") (Some filterValues)
    !! "FilterExpression" = Some (JStr "#name = :name")
  ∧ query_params "test" "id = :id" keys (Some "#name = :name") None
      = {[ "TableName" := JStr "test";
           "KeyConditionExpression" := JStr "id = :id";
           "ExpressionAttributeValues" := JObj keys ]}
  ∧ scan_params "test" None (Some filterValues) = {[ "TableName" := JStr "test" ]}.
Proof.
  intros keys filterValues. split; [|split].
  - apply (proj1 (proj2 (filter_needs_both (constant_remote ∅) {| dev := false |}
                           "test" "name-index" "id = :id" ∅ keys
                           (Some "#name = :name") (Some filterValues) start))).
    reflexivity.
  - apply (proj2 (proj2 (filter_needs_both (constant_remote ∅) {| dev := false |}
                           "test" "name-index" "id = :id" ∅ keys
                           (Some "#name = :name") None start))).
    reflexivity.
  - apply (proj2 (proj2 (filter_needs_both (constant_remote ∅) {| dev := false |}
                           "test" "name-index" "id = :id" ∅ keys
                           None (Some filterValues) start))).
    reflexivity.
Defined.

(** ** clearTable *)

Section ClearTable.

Context {World : Type}.
Variable remote : Command → World → (JsError + JsObject) * World.

Lemma batchWrite_sends_once (self : DynamoDB) (table : string) (requests : JsVal)
    (st : State World) :
  sent (snd (batchWrite remote self table requests st))
    = (sent st ++ [{| kind := BatchWriteItemCommand;
                      input := batchWrite_params table requests |}])%list.
Proof.
  unfold batchWrite. run.
  destruct (remote _ (world st)) as [[error|res] w]; simpl.
  - by destruct (dev self).
  - destruct (get_prop (own res "UnprocessedItems") table) as [u|e]; simpl.
    + destruct (truthy u); by destruct (dev self).
    + destruct (dev self); simpl; by destruct (instanceof_HttpError e).
Qed.

(** Items that are objects have an [id] to read, absent or not: the
    callback never throws on them. *)
Lemma map_elements_objects (items : list JsObject) :
  map_elements delete_request (JObj <$> items) = Returned (delete_request_of <$> items).
Proof.
  induction items as [|item items IH]; [done|].
  rewrite !fmap_cons. simpl. by rewrite IH.
Qed.

(** A run of [clearTable] whose scan resolves with a list of items. *)
Lemma clearTable_run (self : DynamoDB) (table : string) (st : State World)
    (res : JsObject) (w : World) (items : list JsObject) :
  let scanCommand := {| kind := ScanCommand; input := {[ "TableName" := JStr table ]} |} in
  let requests := JArr (delete_request_of <$> items) in
  let st1 := {| world := w; sent := sent st ++ [scanCommand]; console := console st |} in
  remote scanCommand (world st) = (inr res, w) →
  own res "Items" = JArr (JObj <$> items) →
  sent (snd (clearTable remote self table st))
    = (sent st ++ [scanCommand;
                   {| kind := BatchWriteItemCommand;
                      input := batchWrite_params table requests |}])%list
  ∧ fst (clearTable remote self table st)
      = match fst (batchWrite remote self table requests st1) with
        | Returned _ => Returned JUndefined
        | Thrown _ => Thrown (http "Error clearing table in database" 500)
        end.
Proof.
  intros scanCommand requests st1 Hscan Hitems.
  pose proof (batchWrite_sends_once self table requests st1) as Hsent.
  unfold clearTable. run. fold scanCommand. rewrite Hscan. simpl.
  rewrite Hitems. simpl. rewrite map_elements_objects. fold requests st1.
  destruct (batchWrite remote self table requests st1) as [[v|error] st2]; simpl in *.
  - split; [|done]. rewrite Hsent. by rewrite <- app_assoc.
  - destruct (dev self); simpl; (split; [|done]); rewrite Hsent; by rewrite <- app_assoc.
Qed.

(** C7, amended.  [clearTable] sends one scan of the table, with the table
    name as its only parameter, and after it nothing or one batch write; it
    never scans again, whatever the response says.  When the scan resolves
    with a list of items, exactly one batch write follows, and it carries
    one delete request for each item of that list, in order.  When the scan
    is rejected no batch write is sent.  A rejected scan, a rejected batch
    write, a batch write that leaves items unprocessed, and anything else
    thrown on the way, leave [clearTable] as the [HttpError] with status
    500; when the batch write leaves nothing unprocessed [clearTable]
    returns [undefined]. *)
Theorem clearTable_scan_then_batch (self : DynamoDB) (table : string) (st : State World) :
  let scanCommand := {| kind := ScanCommand; input := {[ "TableName" := JStr table ]} |} in
  let batchCommand requests :=
    {| kind := BatchWriteItemCommand;
       input := {[ "RequestItems" := JObj {[ table := JArr requests ]} ]} |} in
  let deleteRequest (item : JsObject) :=
    JObj {[ "DeleteRequest" :=
              JObj {[ "Key" := JObj {[ "id" := default JUndefined (item !! "id") ]} ]} ]} in
  let failure := http "Error clearing table in database" 500 in
  (sent (snd (clearTable remote self table st)) = (sent st ++ [scanCommand])%list
   ∨ ∃ requests, sent (snd (clearTable remote self table st))
                   = (sent st ++ [scanCommand; batchCommand requests])%list)
  ∧ (∀ res w items,
       remote scanCommand (world st) = (inr res, w) →
       res !! "Items" = Some (JArr (JObj <$> items)) →
       length (deleteRequest <$> items) = length items
       ∧ sent (snd (clearTable remote self table st))
           = (sent st ++ [scanCommand; batchCommand (deleteRequest <$> items)])%list
       ∧ (∀ error w',
            remote (batchCommand (deleteRequest <$> items)) w = (inl error, w') →
            fst (clearTable remote self table st) = Thrown failure)
       ∧ (∀ res' w' unprocessed v,
            remote (batchCommand (deleteRequest <$> items)) w = (inr res', w') →
            res' !! "UnprocessedItems" = Some (JObj unprocessed) →
            unprocessed !! table = Some v → truthy v = true →
            fst (clearTable remote self table st) = Thrown failure)
       ∧ (∀ res' w' unprocessed,
            remote (batchCommand (deleteRequest <$> items)) w = (inr res', w') →
            res' !! "UnprocessedItems" = Some (JObj unprocessed) →
            unprocessed !! table = None → table ∉ object_prototype_names →
            fst (clearTable remote self table st) = Returned JUndefined))
  ∧ (∀ error w,
       remote scanCommand (world st) = (inl error, w) →
       fst (clearTable remote self table st) = Thrown failure
       ∧ sent (snd (clearTable remote self table st)) = (sent st ++ [scanCommand])%list)
  ∧ (∀ thrown, fst (clearTable remote self table st) = Thrown thrown → thrown = failure).
Proof.
  intros scanCommand batchCommand deleteRequest failure. split; [|split; [|split]].
  - unfold clearTable. run. fold scanCommand.
    destruct (remote scanCommand (world st)) as [[error|res] w]; simpl.
    + left. by destruct (dev self).
    + destruct (array_map delete_request (own res "Items")) as [requests|error]; simpl.
      * right. exists requests.
        pose proof (batchWrite_sends_once self table (JArr requests)
                      {| world := w; sent := sent st ++ [scanCommand];
                         console := console st |}) as Hsent.
        destruct (batchWrite remote self table (JArr requests) _) as [[v|error] st2];
          simpl in *.
        -- rewrite Hsent. by rewrite <- app_assoc.
        -- destruct (dev self); simpl; rewrite Hsent; by rewrite <- app_assoc.
      * left. by destruct (dev self).
  - intros res w items Hscan Hitems.
    assert (own res "Items" = JArr (JObj <$> items)) as Hown
      by (unfold own; by rewrite Hitems).
    destruct (clearTable_run self table st res w items Hscan Hown) as [Hsent Hresult].
    change (delete_request_of <$> items) with (deleteRequest <$> items) in Hsent, Hresult.
    change (batchWrite_params table (JArr (deleteRequest <$> items)))
      with (input (batchCommand (deleteRequest <$> items))) in Hsent.
    split; [by rewrite length_fmap|]. split; [exact Hsent|].
    split; [|split].
    + intros error w' Hbatch. rewrite Hresult. unfold batchWrite. run.
      unfold batchWrite_params. fold (batchCommand (deleteRequest <$> items)).
      rewrite Hbatch. simpl. by destruct (dev self).
    + intros res' w' unprocessed v Hbatch Hunprocessed Hv Htruthy.
      rewrite Hresult. unfold batchWrite. run.
      unfold batchWrite_params. fold (batchCommand (deleteRequest <$> items)).
      rewrite Hbatch. simpl. unfold own. rewrite Hunprocessed. simpl.
      rewrite Hv, Htruthy. simpl. by destruct (dev self).
    + intros res' w' unprocessed Hbatch Hunprocessed Hnone Hname.
      assert (inherited table = JUndefined) as Hinherited.
      { unfold inherited.
        destruct (existsb (String.eqb table) object_prototype_names) eqn:Hex; [|done].
        apply existsb_exists in Hex as (k & Hin & Heq%String.eqb_eq). subst k.
        by apply list_elem_of_In in Hin. }
      rewrite Hresult. unfold batchWrite. run.
      unfold batchWrite_params. fold (batchCommand (deleteRequest <$> items)).
      rewrite Hbatch. simpl. unfold own. rewrite Hunprocessed. simpl.
      rewrite Hnone, Hinherited. simpl. by destruct (dev self).
  - intros error w Hscan. unfold clearTable. run. fold scanCommand. rewrite Hscan. simpl.
    by destruct (dev self).
  - intros thrown. unfold clearTable. run. fold scanCommand.
    destruct (remote scanCommand (world st)) as [[error|res] w]; simpl.
    + destruct (dev self); simpl; by intros [= <-].
    + destruct (array_map delete_request (own res "Items")) as [requests|error]; simpl.
      * destruct (batchWrite remote self table (JArr requests) _) as [[v|error] st2];
          simpl; [done|].
        destruct (dev self); simpl; by intros [= <-].
      * destruct (dev self); simpl; by intros [= <-].
Qed.

(** C10.  When the scan of [clearTable] resolves with a list of items,
    the batch write carries, for each item and at its position, the
    request [{DeleteRequest: {Key: {id: item.id}}}]: the key has the one
    attribute [id], read from the item ([undefined] if the item has no
    [id]), whatever the table and whatever else the item holds. *)
Theorem clearTable_keys_by_id (self : DynamoDB) (table : string) (st : State World)
    (res : JsObject) (w : World) (items : list JsObject) :
  remote {| kind := ScanCommand; input := {[ "TableName" := JStr table ]} |} (world st)
    = (inr res, w) →
  own res "Items" = JArr (JObj <$> items) →
  ∃ requests,
    sent (snd (clearTable remote self table st))
      = (sent st ++ [{| kind := ScanCommand; input := {[ "TableName" := JStr table ]} |};
                     {| kind := BatchWriteItemCommand;
                        input := {[ "RequestItems" :=
                                      JObj {[ table := JArr requests ]} ]} |}])%list
    ∧ length requests = length items
    ∧ (∀ i item, items !! i = Some item →
         requests !! i
           = Some (JObj {[ "DeleteRequest" :=
                             JObj {[ "Key" := JObj {[ "id" := own item "id" ]} ]} ]}))
    ∧ (∀ i item item', items !! i = Some item → own item' "id" = own item "id" →
         requests !! i = Some (delete_request_of item')).
Proof.
  intros Hscan Hitems. exists (delete_request_of <$> items).
  split; [by apply (clearTable_run self table st res w items)|].
  split; [by rewrite length_fmap|]. split.
  - intros i item Hi. by rewrite list_lookup_fmap, Hi.
  - intros i item item' Hi Hid. rewrite list_lookup_fmap, Hi. simpl.
    unfold delete_request_of. by rewrite Hid.
Qed.

End ClearTable.

(** C7 as it was stated fails: when the scan is rejected, [clearTable]
    sends the scan and no batch write. *)
Lemma clearTable_scan_then_batch_counterexample :
  sent (snd (clearTable (failing_remote "TimeoutError") {| dev := false |} "test" start))
    = [ {| kind := ScanCommand; input := {[ "TableName" := JStr "test" ]} |} ]
  ∧ Forall (λ command, kind command ≠ BatchWriteItemCommand)
      (sent (snd (clearTable (failing_remote "TimeoutError") {| dev := false |}
                    "test" start)))
  ∧ fst (clearTable (failing_remote "TimeoutError") {| dev := false |} "test" start)
      = Thrown (http "Error clearing table in database" 500).
Proof.
  assert (sent (snd (clearTable (failing_remote "TimeoutError") {| dev := false |}
                       "test" start))
          = [ {| kind := ScanCommand; input := {[ "TableName" := JStr "test" ]} |} ])
    as Hsent by reflexivity.
  split; [exact Hsent|]. split; [|reflexivity].
  rewrite Hsent. constructor; [discriminate | constructor].
Qed.

Lemma clearTable_scan_then_batch_witness :
  let items : list JsObject :=
    [ {[ "id" := JObj {[ "S" := JStr "a" ]}; "name" := JObj {[ "S" := JStr "X" ]} ]};
      {[ "id" := JObj {[ "S" := JStr "b" ]} ]} ] in
  let requests :=
    [ JObj {[ "DeleteRequest" :=
                JObj {[ "Key" := JObj {[ "id" := JObj {[ "S" := JStr "a" ]} ]} ]} ]};
      JObj {[ "DeleteRequest" :=
                JObj {[ "Key" := JObj {[ "id" := JObj {[ "S" := JStr "b" ]} ]} ]} ]} ] in
  let rejecting_batch :=
    scripted_remote (λ k,
      match k with
      | ScanCommand => inr {[ "Items" := JArr (JObj <$> items) ]}
      | _ => inl {| err_name := "ThrottlingException"; err_message := "rejected" |}
      end) in
  sent (snd (clearTable two_item_remote {| dev := false |} "test" start))
    = [ {| kind := ScanCommand; input := {[ "TableName" := JStr "test" ]} |};
        {| kind := BatchWriteItemCommand;
           input := {[ "RequestItems" := JObj {[ "test" := JArr requests ]} ]} |} ]
  ∧ fst (clearTable two_item_remote {| dev := false |} "test" start) = Returned JUndefined
  ∧ fst (clearTable rejecting_batch {| dev := false |} "test" start)
      = Thrown (http "Error clearing table in database" 500)
  ∧ fst (clearTable (failing_remote "TimeoutError") {| dev := false |} "test" start)
      = Thrown (http "Error clearing table in database" 500)
  ∧ http "Error clearing table in database" 500 = http "Error clearing table in database" 500.
Proof.
  intros items requests rejecting_batch.
  pose proof (clearTable_scan_then_batch two_item_remote {| dev := false |} "test" start)
    as (_ & Hitems & _ & _).
  destruct (Hitems {[ "Items" := JArr (JObj <$> items) ]} tt items eq_refl eq_refl)
    as (_ & Hsent & _ & _ & Hprocessed).
  pose proof (clearTable_scan_then_batch rejecting_batch {| dev := false |} "test" start)
    as (_ & Hitems' & _ & _).
  destruct (Hitems' {[ "Items" := JArr (JObj <$> items) ]} tt items eq_refl eq_refl)
    as (_ & _ & Hbatch & _ & _).
  pose proof (clearTable_scan_then_batch (failing_remote "TimeoutError")
                {| dev := false |} "test" start) as (_ & _ & Hrejected & Hthrown).
  assert (fst (clearTable (failing_remote "TimeoutError") {| dev := false |} "test" start)
          = Thrown (http "Error clearing table in database" 500)) as Hrun.
  { apply (Hrejected {| err_name := "TimeoutError"; err_message := "rejected" |} tt).
    reflexivity. }
  split; [exact Hsent|]. split; [|split; [|split]].
  - apply (Hprocessed {[ "UnprocessedItems" := JObj ∅ ]} tt ∅); [reflexivity..|].
    intros Hin. apply list_elem_of_In in Hin. simpl in Hin.
    repeat (destruct Hin as [Hin|Hin]; [discriminate|]). exact Hin.
  - apply (Hbatch {| err_name := "ThrottlingException"; err_message := "rejected" |} tt).
    reflexivity.
  - exact Hrun.
  - exact (Hthrown _ Hrun).
Defined.

Lemma clearTable_keys_by_id_witness :
  let items : list JsObject :=
    [ {[ "id" := JObj {[ "S" := JStr "a" ]}; "name" := JObj {[ "S" := JStr "X" ]} ]};
      {[ "id" := JObj {[ "S" := JStr "b" ]} ]} ] in
  ∃ requests,
    sent (snd (clearTable two_item_remote {| dev := false |} "test" start))
      = [ {| kind := ScanCommand; input := {[ "TableName" := JStr "test" ]} |};
          {| kind := BatchWriteItemCommand;
             input := {[ "RequestItems" := JObj {[ "test" := JArr requests ]} ]} |} ]
    ∧ requests !! 0
        = Some (JObj {[ "DeleteRequest" :=
                          JObj {[ "Key" := JObj {[ "id" := JObj {[ "S" := JStr "a" ]} ]} ]} ]}).
Proof.
  intros items.
  destruct (clearTable_keys_by_id two_item_remote {| dev := false |} "test" start
              {[ "Items" := JArr (JObj <$> items) ]} tt items eq_refl eq_refl)
    as (requests & Hsent & _ & Hrequest & _).
  exists requests. split; [exact Hsent|].
  exact (Hrequest 0 _ eq_refl).
Defined.

(** ** The development flag *)

Section DevFlag.

Context {World : Type}.
Variable remote : Command → World → (JsError + JsObject) * World.

#[local] Ltac start_method :=
  intros [d1] [d2] [w1 s1 c1] [w2 s2 c2] [Hw Hs]; simpl in Hw, Hs; subst w2 s2;
  unfold same_but_console; run.

#[local] Ltac finish :=
  repeat match goal with
         | |- context [if ?b then _ else _] => destruct b; simpl
         end;
  repeat split; simpl; congruence.

Lemma set_flag table item condition :
  flag_only_logs (λ self, set remote self table item condition).
Proof.
  start_method. unfold set. run.
  destruct (remote _ w1) as [[error|res] w]; simpl; finish.
Qed.

Lemma get_flag table keys : flag_only_logs (λ self, get remote self table keys).
Proof.
  start_method. unfold get. run.
  destruct (remote _ w1) as [[error|res] w]; simpl; finish.
Qed.

Lemma batchGet_flag table keys projection :
  flag_only_logs (λ self, batchGet remote self table keys projection).
Proof.
  start_method. unfold batchGet. run.
  destruct (remote _ w1) as [[error|res] w]; simpl; [finish|].
  destruct (get_prop (own res "Responses") table); simpl; finish.
Qed.

Lemma batchWrite_flag table requests :
  flag_only_logs (λ self, batchWrite remote self table requests).
Proof.
  start_method. unfold batchWrite. run.
  destruct (remote _ w1) as [[error|res] w]; simpl; [finish|].
  destruct (get_prop (own res "UnprocessedItems") table); simpl; finish.
Qed.

Lemma update_flag table keys updateExpression names values condition returnValues :
  flag_only_logs (λ self, update remote self table keys updateExpression names values
                            condition returnValues).
Proof.
  start_method. unfold update. run.
  destruct (remote _ w1) as [[error|res] w]; simpl; finish.
Qed.

Lemma delete_flag table keys condition :
  flag_only_logs (λ self, delete remote self table keys condition).
Proof.
  start_method. unfold delete. run.
  destruct (remote _ w1) as [[error|res] w]; simpl; finish.
Qed.

Lemma query_flag table condition keys filter filterValues :
  flag_only_logs (λ self, query remote self table condition keys filter filterValues).
Proof.
  start_method. unfold query. run.
  destruct (remote _ w1) as [[error|res] w]; simpl; finish.
Qed.

Lemma queryByGSI_flag table indexName condition names keys filter filterValues :
  flag_only_logs (λ self, queryByGSI remote self table indexName condition names keys
                            filter filterValues).
Proof.
  start_method. unfold queryByGSI. run.
  destruct (remote _ w1) as [[error|res] w]; simpl; finish.
Qed.

Lemma scan_flag table filter filterValues :
  flag_only_logs (λ self, scan remote self table filter filterValues).
Proof.
  start_method. unfold scan. run.
  destruct (remote _ w1) as [[error|res] w]; simpl; finish.
Qed.

Lemma clearTable_flag table : flag_only_logs (λ self, clearTable remote self table).
Proof.
  intros self1 self2 st1 st2 [Hw Hs]. unfold clearTable. run.
  rewrite <- Hw, <- Hs.
  destruct (remote _ (world st1)) as [[error|res] w]; simpl.
  - unfold same_but_console. destruct (dev self1), (dev self2); simpl; done.
  - destruct (array_map delete_request (own res "Items")) as [requests|error]; simpl.
    + match goal with
      | |- context [batchWrite remote self1 table (JArr requests) ?a] =>
          match goal with
          | |- context [batchWrite remote self2 table (JArr requests) ?b] =>
              destruct (batchWrite_flag table (JArr requests) self1 self2 a b)
                as (Hout & [Hw' Hs'] & Hquiet); [done|]
          end
      end.
      simpl in Hquiet.
      destruct (batchWrite remote self1 table (JArr requests) _) as [[v1|e1] st1'];
        destruct (batchWrite remote self2 table (JArr requests) _) as [[v2|e2] st2'];
        simpl in *; try done.
      unfold same_but_console.
      destruct (dev self1), (dev self2); simpl; repeat split; auto; discriminate.
    + unfold same_but_console. destruct (dev self1), (dev self2); simpl; done.
Qed.

Lemma invoke_flag (call : Call) : flag_only_logs (λ self, invoke remote self call).
Proof.
  destruct call; simpl.
  - apply set_flag.
  - apply get_flag.
  - apply batchGet_flag.
  - apply batchWrite_flag.
  - apply update_flag.
  - apply delete_flag.
  - apply query_flag.
  - apply queryByGSI_flag.
  - apply scan_flag.
  - apply clearTable_flag.
Qed.

(** C8.  For every method and every input, an adapter made with the
    development flag on and one made with it off return the same result
    or throw the same error, send the same commands and leave the remote
    service in the same state; with the flag off nothing is written to
    the console. *)
Theorem dev_flag_only_logs (call : Call) (st : State World) :
  let verbose := invoke remote {| dev := true |} call st in
  let quiet := invoke remote {| dev := false |} call st in
  fst verbose = fst quiet
  ∧ world (snd verbose) = world (snd quiet)
  ∧ sent (snd verbose) = sent (snd quiet)
  ∧ console (snd quiet) = console st.
Proof.
  simpl.
  destruct (invoke_flag call {| dev := true |} {| dev := false |} st st) as (Hout & [Hw Hs] & _);
    [done|].
  destruct (invoke_flag call {| dev := false |} {| dev := false |} st st) as (_ & _ & Hquiet);
    [done|].
  auto.
Qed.

End DevFlag.


(** ** Every method: what it throws, sends and logs *)

Section EveryMethod.

Context {World : Type}.
Variable remote : Command → World → (JsError + JsObject) * World.

#[local] Ltac split_ifs :=
  repeat match goal with
         | |- context [if ?b then _ else _] => destruct b eqn:?; simpl
         end.

#[local] Ltac send_cases st :=
  run; destruct (remote _ (world st)) as [[error|res] w] eqn:Hsend; simpl.

(** Reading a property throws nothing but a [TypeError]. *)
Lemma get_prop_thrown (v : JsVal) (k : string) (e : Exn) :
  get_prop v k = Thrown e → instanceof_HttpError e = false.
Proof. destruct v; simpl; intros [= <-]; done. Qed.

(** [batchWrite] in one view: what it adds to the console, and what it
    throws. *)
Lemma batchWrite_profile (self : DynamoDB) (table : string) (requests : JsVal)
    (st : State World) :
  ∃ lines,
    console (snd (batchWrite remote self table requests st)) = (console st ++ lines)%list
    ∧ (∀ v, fst (batchWrite remote self table requests st) = Returned v →
            lines = success_lines self (CallBatchWrite table requests))
    ∧ (∀ e, fst (batchWrite remote self table requests st) = Thrown e →
            (∃ msg, e = http msg 500) ∧ (dev self = true → lines ≠ [])).
Proof.
  unfold batchWrite, success_lines. send_cases st.
  - destruct (dev self); simpl.
    + eexists. split; [reflexivity|]. split; [done|]. intros e [= <-]. eauto.
    + exists []. rewrite app_nil_r. split; [done|]. split; [done|]. intros e [= <-]. eauto.
  - destruct (get_prop (own res "UnprocessedItems") table) as [u|e'] eqn:Hu; simpl.
    + destruct (truthy u); destruct (dev self); simpl.
      * rewrite <- app_assoc. eexists. split; [reflexivity|]. split; [done|].
        intros e [= <-]. eauto.
      * exists []. rewrite app_nil_r. split; [done|]. split; [done|].
        intros e [= <-]. eauto.
      * eexists. split; [reflexivity|]. split; [done|]. done.
      * exists []. rewrite app_nil_r. split; [done|]. split; [done|]. done.
    + rewrite (get_prop_thrown _ _ _ Hu). destruct (dev self); simpl.
      * eexists. split; [reflexivity|]. split; [done|]. intros e [= <-]. eauto.
      * exists []. rewrite app_nil_r. split; [done|]. split; [done|].
        intros e [= <-]. eauto.
Qed.

(** X1.  Whatever a method throws is an [HttpError], and its status is one
    of the codes written in the handlers of that method: 409 or 500 for
    [set], 404 or 500 for [get], [update] and [delete], 400 or 500 for
    [queryByGSI], 500 for the others.  No error of the client and no
    [TypeError] leaves the adapter. *)
Theorem thrown_is_http (self : DynamoDB) (call : Call) (st : State World) (e : Exn) :
  fst (invoke remote self call st) = Thrown e →
  ∃ msg code, e = http msg code ∧ code ∈ status_codes call.
Proof.
  destruct call; simpl.
  - unfold set. send_cases st; [|done].
    split_ifs; intros [= <-]; eexists _, _; (split; [reflexivity | set_solver]).
  - unfold get. send_cases st.
    + split_ifs; intros [= <-]; eexists _, _; (split; [reflexivity | set_solver]).
    + split_ifs; try done; intros [= <-]; eexists _, _; (split; [reflexivity | set_solver]).
  - unfold batchGet. send_cases st.
    + split_ifs; intros [= <-]; eexists _, _; (split; [reflexivity | set_solver]).
    + destruct (get_prop (own res "Responses") table); simpl; [done|].
      split_ifs; intros [= <-]; eexists _, _; (split; [reflexivity | set_solver]).
  - intros Hthrown.
    destruct (batchWrite_profile self table requests st) as (lines & _ & _ & Hthrows).
    pose proof (Hthrows e Hthrown) as [[msg Hmsg] _]. exists msg, 500%Z. split; [done | by left].
  - unfold update. send_cases st; [|done].
    split_ifs; intros [= <-]; eexists _, _; (split; [reflexivity | set_solver]).
  - unfold delete. send_cases st; [|done].
    split_ifs; intros [= <-]; eexists _, _; (split; [reflexivity | set_solver]).
  - unfold query. send_cases st; [|done].
    split_ifs; intros [= <-]; eexists _, _; (split; [reflexivity | set_solver]).
  - unfold queryByGSI. send_cases st; [|done].
    split_ifs; intros [= <-]; eexists _, _; (split; [reflexivity | set_solver]).
  - unfold scan. send_cases st; [|done].
    split_ifs; intros [= <-]; eexists _, _; (split; [reflexivity | set_solver]).
  - unfold clearTable. send_cases st.
    + split_ifs; intros [= <-]; eexists _, _; (split; [reflexivity | set_solver]).
    + destruct (array_map delete_request (own res "Items")) as [requests|e']; simpl.
      * destruct (batchWrite remote self table (JArr requests) _) as [[v|e'] st2]; simpl;
          [done|].
        split_ifs; intros [= <-]; eexists _, _; (split; [reflexivity | set_solver]).
      * split_ifs; intros [= <-]; eexists _, _; (split; [reflexivity | set_solver]).
Qed.

End EveryMethod.

Lemma thrown_is_http_witness :
  ∃ msg code,
    http "Item already exists in database" 409 = http msg code
    ∧ code ∈ status_codes (CallSet "test" JNull (Some "attribute_not_exists(id)")).
Proof.
  apply (thrown_is_http (failing_remote "ConditionalCheckFailedException") {| dev := true |}
           (CallSet "test" JNull (Some "attribute_not_exists(id)")) start).
  reflexivity.
Defined.

Section Traces.

Context {World : Type}.
Variable remote : Command → World → (JsError + JsObject) * World.

#[local] Ltac split_ifs :=
  repeat match goal with
         | |- context [if ?b then _ else _] => destruct b eqn:?; simpl
         end.

#[local] Ltac send_cases st :=
  run; destruct (remote _ (world st)) as [[error|res] w] eqn:Hsend; simpl.

(** X2.  A method other than [clearTable] sends one command, the one made
    from its arguments, whether the call succeeds or fails, and leaves the
    remote service as that one send left it.  [clearTable] sends its scan
    and at most one more command. *)
Theorem one_command_per_call (self : DynamoDB) (call : Call) (st : State World) :
  ∃ rest,
    sent (snd (invoke remote self call st)) = (sent st ++ command_of call :: rest)%list
    ∧ match call with
      | CallClearTable _ => (length rest ≤ 1)%nat
      | _ => rest = []
             ∧ world (snd (invoke remote self call st))
                 = snd (remote (command_of call) (world st))
      end.
Proof.
  destruct call; simpl.
  - exists []. unfold set. send_cases st; split_ifs; done.
  - exists []. unfold get. send_cases st; split_ifs; done.
  - exists []. unfold batchGet. send_cases st; [split_ifs; done|].
    destruct (get_prop (own res "Responses") table); simpl; split_ifs; done.
  - exists []. unfold batchWrite. send_cases st; [split_ifs; done|].
    destruct (get_prop (own res "UnprocessedItems") table); simpl; split_ifs; done.
  - exists []. unfold update. send_cases st; split_ifs; done.
  - exists []. unfold delete. send_cases st; split_ifs; done.
  - exists []. unfold query. send_cases st; split_ifs; done.
  - exists []. unfold queryByGSI. send_cases st; split_ifs; done.
  - exists []. unfold scan. send_cases st; split_ifs; done.
  - unfold clearTable. send_cases st.
    + exists []. split_ifs; simpl; split; (done || lia).
    + destruct (array_map delete_request (own res "Items")) as [requests|e']; simpl.
      * pose proof (batchWrite_sends_once remote self table (JArr requests)
                      {| world := w;
                         sent := sent st ++ [{| kind := ScanCommand;
                                                input := {[ "TableName" := JStr table ]} |}];
                         console := console st |}) as Hsent.
        simpl in Hsent. rewrite <- app_assoc in Hsent. simpl in Hsent.
        eexists [_].
        destruct (batchWrite remote self table (JArr requests) _) as [[v|e'] st2];
          simpl in *; split_ifs; simpl; (split; [exact Hsent | lia]).
      * exists []. split_ifs; simpl; split; (done || lia).
Qed.

(** The console of a call in one view. *)
Lemma invoke_console (self : DynamoDB) (call : Call) (st : State World) :
  ∃ lines,
    console (snd (invoke remote self call st)) = (console st ++ lines)%list
    ∧ (∀ v, fst (invoke remote self call st) = Returned v → lines = success_lines self call)
    ∧ (∀ e, fst (invoke remote self call st) = Thrown e → dev self = true → lines ≠ []).
Proof.
  assert (∀ (c : list LogLine) l1 l2, ((c ++ [l1]) ++ [l2] = c ++ [l1; l2])%list) as Htwo.
  { intros. by rewrite <- app_assoc. }
  destruct self as [d].
  destruct call; simpl;
    try (unfold set, get, batchGet, update, delete, query, queryByGSI, scan;
         send_cases st;
         try (destruct (get_prop (own res "Responses") table); simpl);
         destruct d; split_ifs; simpl; rewrite ?Htwo;
         first [ eexists; split; [reflexivity|]; split; [done|]; done
               | exists []; rewrite app_nil_r; split; [done|]; split; done ]).
  - destruct (batchWrite_profile remote {| dev := d |} table requests st)
      as (lines & Hconsole & Hreturned & Hthrown).
    exists lines. split; [done|]. split; [done|].
    intros e He Hdev. by apply (Hthrown e He).
  - unfold clearTable. send_cases st.
    + destruct d; simpl.
      * eexists. split; [reflexivity|]. done.
      * exists []. rewrite app_nil_r. done.
    + destruct (array_map delete_request (own res "Items")) as [requests|e']; simpl.
      * match goal with
        | |- context [batchWrite remote ?s table (JArr requests) ?a] =>
            destruct (batchWrite_profile remote s table (JArr requests) a)
              as (lines & Hconsole & Hreturned & Hthrown)
        end.
        simpl in Hconsole, Hreturned.
        destruct (batchWrite remote {| dev := d |} table (JArr requests) _)
          as [[v|e'] st2]; simpl in *.
        -- exists lines. split; [done|]. split; [|done].
           intros _ _. by apply (Hreturned v).
        -- destruct d; simpl.
           ++ rewrite Hconsole, <- app_assoc. eexists. split; [reflexivity|].
              split; [done|]. intros _ _ _. by destruct lines.
           ++ exists lines. split; [done|]. done.
      * destruct d; simpl.
        -- eexists. split; [reflexivity|]. done.
        -- exists []. rewrite app_nil_r. done.
Qed.

(** X3.  A method only appends to the console, and with the development
    flag on a call that throws has written at least one line: no failure
    passes without a trace. *)
Theorem failure_is_logged (self : DynamoDB) (call : Call) (st : State World) :
  ∃ lines,
    console (snd (invoke remote self call st)) = (console st ++ lines)%list
    ∧ (dev self = true →
       ∀ e, fst (invoke remote self call st) = Thrown e → (0 < length lines)%nat).
Proof.
  destruct (invoke_console self call st) as (lines & Hconsole & _ & Hthrown).
  exists lines. split; [done|]. intros Hdev e He.
  specialize (Hthrown e He Hdev). destruct lines; [done | simpl; lia].
Qed.

(** X4.  A call that returns has written nothing to the console, flag on
    or off, except for [batchWrite], alone or inside [clearTable], which
    with the flag on writes the one line ['All items processed
    successfully']. *)
Theorem success_is_silent (self : DynamoDB) (call : Call) (st : State World) (v : JsVal) :
  fst (invoke remote self call st) = Returned v →
  console (snd (invoke remote self call st)) = (console st ++ success_lines self call)%list.
Proof.
  intros Hv. destruct (invoke_console self call st) as (lines & Hconsole & Hreturned & _).
  by rewrite Hconsole, (Hreturned v Hv).
Qed.

End Traces.

Lemma failure_is_logged_witness :
  ∃ lines,
    console (snd (invoke (failing_remote "TimeoutError") {| dev := true |}
                    (CallGet "test" JNull) start)) = lines
    ∧ (0 < length lines)%nat.
Proof.
  destruct (failure_is_logged (failing_remote "TimeoutError") {| dev := true |}
              (CallGet "test" JNull) start) as (lines & Hconsole & Hlogged).
  exists lines. split; [exact Hconsole|].
  apply (Hlogged eq_refl (http "Error getting item from database" 500)).
  reflexivity.
Defined.

Lemma success_is_silent_witness :
  console (snd (invoke (constant_remote {[ "UnprocessedItems" := JObj ∅ ]}) {| dev := true |}
                  (CallBatchWrite "test" (JArr [])) start))
    = [{| stream := StdOut; text := "All items processed successfully"; extra := [] |}].
Proof.
  apply (success_is_silent (constant_remote {[ "UnprocessedItems" := JObj ∅ ]})
           {| dev := true |} (CallBatchWrite "test" (JArr [])) start
           (JObj {[ "UnprocessedItems" := JObj ∅ ]})).
  reflexivity.
Defined.

(** ** Parameters *)

Section Parameters.

Implicit Types (table : string) (keys : JsVal) (condition : option string).

(** X5.  The condition expression is sent when the condition is truthy,
    and then it is the only parameter added; a condition that is [null] or
    the empty string leaves the parameters of [set], [update] and [delete]
    as they are without one. *)
Theorem condition_only_when_truthy table (item : JsVal) keys
    (updateExpression names values : JsVal) condition (returnValues : option JsVal) :
  (∀ c, condition = Some c → c ≠ "" →
     set_params table item condition
       = <["ConditionExpression" := JStr c]> (set_params table item None)
     ∧ update_params table keys updateExpression names values condition returnValues
         = <["ConditionExpression" := JStr c]>
             (update_params table keys updateExpression names values None returnValues)
     ∧ delete_params table keys condition
         = <["ConditionExpression" := JStr c]> (delete_params table keys None))
  ∧ (truthy_str condition = false →
     set_params table item condition = set_params table item None
     ∧ update_params table keys updateExpression names values condition returnValues
         = update_params table keys updateExpression names values None returnValues
     ∧ delete_params table keys condition = delete_params table keys None
     ∧ set_params table item condition !! "ConditionExpression" = None
     ∧ update_params table keys updateExpression names values condition returnValues
         !! "ConditionExpression" = None
     ∧ delete_params table keys condition !! "ConditionExpression" = None).
Proof.
  unfold set_params, update_params, delete_params, with_condition. split.
  - intros c -> Hc. simpl. destruct (String.eqb_spec c ""); done.
  - intros Hfalsy. destruct condition as [c|]; [rewrite Hfalsy|]; done.
Qed.

(** What [batchGet] writes to [attributeNames], read at one name. *)
Lemma projection_fold_lookup (pieces : list string) (base : JsObject) (q : string) :
  foldl (λ attributeNames attr,
           let trimmedAttr := trim attr in
           <["#" +:+ trimmedAttr := JStr trimmedAttr]> attributeNames)
        base pieces !! q
    = if bool_decide (q ∈ (λ attr, "#" +:+ trim attr) <$> pieces)
      then Some (JStr (slice1 q)) else base !! q.
Proof.
  revert base. induction pieces as [|attr pieces IH]; intros base; [done|].
  simpl foldl. rewrite IH, fmap_cons.
  destruct (decide (q ∈ (λ attr, "#" +:+ trim attr) <$> pieces)) as [Hin|Hnin].
  - rewrite !bool_decide_eq_true_2; [done | by apply elem_of_cons; right | done].
  - rewrite (bool_decide_eq_false_2 _ Hnin).
    destruct (decide (q = "#" +:+ trim attr)) as [->|Hne].
    + rewrite lookup_insert_eq, bool_decide_eq_true_2; [done | by apply elem_of_cons; left].
    + rewrite lookup_insert_ne by done.
      rewrite bool_decide_eq_false_2; [done|].
      intros [?|?]%elem_of_cons; done.
Qed.

(** X6.  Without a projection, or with the empty string, [batchGet] asks
    for the keys alone.  With a projection it sends one placeholder for
    each comma-separated piece, and the attribute names sent along define
    exactly those placeholders: each is ['#'] followed by the piece
    trimmed, and stands for the piece trimmed. *)
Theorem batchGet_projection table keys (projection : option string) :
  (truthy_str projection = false →
     batchGet_params table keys projection
       = {[ "RequestItems" := JObj {[ table := JObj {[ "Keys" := keys ]} ]} ]})
  ∧ (∀ p, projection = Some p → p ≠ "" →
       ∃ request names,
         batchGet_params table keys projection
           = {[ "RequestItems" := JObj {[ table := JObj request ]} ]}
         ∧ request !! "Keys" = Some keys
         ∧ request !! "ProjectionExpression"
             = Some (JStr (join ", " (projection_placeholders p)))
         ∧ request !! "ExpressionAttributeNames" = Some (JObj names)
         ∧ length (projection_placeholders p) = length (split_comma p)
         ∧ (∀ q, q ∈ projection_placeholders p ↔ is_Some (names !! q))
         ∧ (∀ q v, names !! q = Some v
                   ↔ ∃ attr, attr ∈ split_comma p ∧ q = "#" +:+ trim attr
                             ∧ v = JStr (trim attr))).
Proof.
  unfold batchGet_params. split.
  - intros Hfalsy. destruct projection as [p|]; [rewrite Hfalsy|]; done.
  - intros p -> Hp.
    assert (truthy_str (Some p) = true) as ->.
    { simpl. destruct (String.eqb_spec p ""); done. }
    eexists _, (projection_names p). split; [reflexivity|].
    split; [by rewrite !lookup_insert_ne, lookup_singleton_eq by done|].
    split; [read_field|]. split; [read_field|].
    split; [unfold projection_placeholders; by rewrite length_fmap|].
    unfold projection_names, projection_placeholders. split.
    + intros q. rewrite projection_fold_lookup, lookup_empty.
      case_bool_decide; split; try done; by intros [? ?].
    + intros q v. rewrite projection_fold_lookup, lookup_empty. split.
      * case_bool_decide as Hin; [|done]. intros [= <-].
        apply list_elem_of_fmap in Hin as [attr [-> Hattr]]. by exists attr.
      * intros (attr & Hattr & -> & ->). rewrite bool_decide_eq_true_2; [done|].
        apply list_elem_of_fmap. by exists attr.
Qed.

(** X7.  [queryByGSI] sends what [query] sends for the same table,
    condition, keys and filter, with the index name added and with the
    attribute names of the caller under the synthesized ones. *)
Theorem queryByGSI_extends_query (table indexName condition : string)
    (attributeNames keys : JsObject) (filter : option string)
    (filterValues : option JsObject) :
  queryByGSI_params table indexName condition attributeNames keys filter filterValues
    = <["IndexName" := JStr indexName]>
        (<["ExpressionAttributeNames" :=
             JObj (match filterValues with
                   | Some values =>
                       if filter_given filter filterValues
                       then synthesized_names values ∪ attributeNames
                       else attributeNames
                   | None => attributeNames
                   end)]>
           (query_params table condition keys filter filterValues)).
Proof.
  unfold queryByGSI_params, query_params.
  destruct filterValues as [values|]; destruct filter as [f|];
    try destruct (filter_given _ _) eqn:Hgiven;
    rewrite ?add_filter_names_synthesized;
    apply map_eq; intros k;
    repeat (rewrite lookup_insert; case_decide; [done|]);
    rewrite ?lookup_singleton; repeat case_decide; try done;
    rewrite ?lookup_empty; done.
Qed.

End Parameters.

Lemma condition_only_when_truthy_witness :
  set_params "test" JNull (Some "attribute_not_exists(id)")
    = <["ConditionExpression" := JStr "attribute_not_exists(id)"]> (set_params "test" JNull None)
  ∧ delete_params "test" JNull (Some "") = delete_params "test" JNull None.
Proof.
  split.
  - apply (proj1 (condition_only_when_truthy "test" JNull JNull JNull JNull JNull
                    (Some "attribute_not_exists(id)") None)
             "attribute_not_exists(id)" eq_refl).
    discriminate.
  - apply (proj2 (condition_only_when_truthy "test" JNull JNull JNull JNull JNull
                    (Some "") None)).
    reflexivity.
Defined.

Lemma batchGet_projection_witness :
  batchGet_params "test" (JArr []) (Some "")
    = {[ "RequestItems" := JObj {[ "test" := JObj {[ "Keys" := JArr [] ]} ]} ]}
  ∧ ∃ request names,
      batchGet_params "test" (JArr []) (Some "id, name")
        = {[ "RequestItems" := JObj {[ "test" := JObj request ]} ]}
      ∧ request !! "ProjectionExpression" = Some (JStr "#id, #name")
      ∧ request !! "ExpressionAttributeNames" = Some (JObj names)
      ∧ is_Some (names !! "#name").
Proof.
  split.
  - apply (proj1 (batchGet_projection "test" (JArr []) (Some ""))). reflexivity.
  - destruct (proj2 (batchGet_projection "test" (JArr []) (Some "id, name"))
                "id, name" eq_refl ltac:(discriminate))
      as (request & names & Hparams & _ & Hexpression & Hnames & _ & Hdefined & _).
    exists request, names. split; [exact Hparams|]. split; [exact Hexpression|].
    split; [exact Hnames|]. apply Hdefined. vm_compute. by right; left.
Defined.

(** ** Results *)

Section Results.

Context {World : Type}.
Variable remote : Command → World → (JsError + JsObject) * World.

#[local] Ltac split_ifs :=
  repeat match goal with
         | |- context [if ?b then _ else _] => destruct b eqn:?; simpl
         end.

(** X8.  What [get] returns is truthy and is the [Item] of a response the
    client resolved with: [get] never returns [undefined], [null] or
    another falsy value, and never a value of its own making. *)
Theorem get_returns_the_item (self : DynamoDB) (table : string) (keys : JsVal)
    (st : State World) (v : JsVal) :
  fst (get remote self table keys st) = Returned v →
  truthy v = true
  ∧ ∃ res w, remote {| kind := GetItemCommand; input := get_params table keys |} (world st)
               = (inr res, w)
             ∧ res !! "Item" = Some v.
Proof.
  unfold get. run.
  destruct (remote _ (world st)) as [[error|res] w] eqn:Hsend; simpl.
  - split_ifs; done.
  - destruct (truthy (own res "Item")) eqn:Hitem; simpl.
    + intros [= <-]. split; [done|]. exists res, w. split; [done|].
      unfold own in *. by destruct (res !! "Item").
    + split_ifs; done.
Qed.

(** A name of [Object.prototype] reads as the inherited member, any other
    name as [undefined]. *)
Lemma inherited_member (k : string) : k ∈ object_prototype_names → inherited k = JBuiltin k.
Proof.
  intros Hin. unfold inherited.
  assert (existsb (String.eqb k) object_prototype_names = true) as ->; [|done].
  apply existsb_exists. exists k. split; [by apply list_elem_of_In | apply String.eqb_refl].
Qed.

Lemma inherited_none (k : string) : k ∉ object_prototype_names → inherited k = JUndefined.
Proof.
  intros Hnin. unfold inherited.
  destruct (existsb (String.eqb k) object_prototype_names) eqn:Hex; [|done].
  apply existsb_exists in Hex as (k' & Hin & Heq%String.eqb_eq). subst k'.
  by apply list_elem_of_In in Hin.
Qed.

(** X9.  When the client resolves, [batchGet] returns the entry of the
    table in [Responses].  If the table has no entry there it returns
    [undefined] without an error, unless the table bears a name of
    [Object.prototype] such as [toString]: then it returns the inherited
    member.  A response without [Responses] ends in the [HttpError] with
    status 500. *)
Theorem batchGet_result (self : DynamoDB) (table : string) (keys : JsVal)
    (projection : option string) (st : State World) (res : JsObject) (w : World) :
  remote {| kind := BatchGetItemCommand; input := batchGet_params table keys projection |}
    (world st) = (inr res, w) →
  (∀ responses items, res !! "Responses" = Some (JObj responses) →
     responses !! table = Some items →
     fst (batchGet remote self table keys projection st) = Returned items)
  ∧ (∀ responses, res !! "Responses" = Some (JObj responses) →
       responses !! table = None → table ∉ object_prototype_names →
       fst (batchGet remote self table keys projection st) = Returned JUndefined)
  ∧ (∀ responses, res !! "Responses" = Some (JObj responses) →
       responses !! table = None → table ∈ object_prototype_names →
       fst (batchGet remote self table keys projection st) = Returned (JBuiltin table))
  ∧ (res !! "Responses" = None →
     fst (batchGet remote self table keys projection st)
       = Thrown (http "Error getting batch items from database" 500)).
Proof.
  intros Hsend. unfold batchGet. run. rewrite Hsend. simpl. unfold own.
  split; [|split; [|split]].
  - intros responses items -> Hitems. simpl. by rewrite Hitems.
  - intros responses -> Hnone Hname. simpl. by rewrite Hnone, inherited_none.
  - intros responses -> Hnone Hname. simpl. by rewrite Hnone, inherited_member.
  - intros ->. simpl. by destruct (dev self).
Qed.

(** X10.  When the client resolves and [UnprocessedItems] holds nothing
    truthy for the table, [batchWrite] returns the response as it came,
    unless the table bears a name of [Object.prototype] such as
    [constructor]: then the inherited member is found in place of an entry
    and [batchWrite] throws the [HttpError] for unprocessed items, with
    status 500.  A response without [UnprocessedItems] ends in the
    [HttpError] with status 500, although the client resolved. *)
Theorem batchWrite_result (self : DynamoDB) (table : string) (requests : JsVal)
    (st : State World) (res : JsObject) (w : World) :
  remote {| kind := BatchWriteItemCommand; input := batchWrite_params table requests |}
    (world st) = (inr res, w) →
  (∀ unprocessed v, res !! "UnprocessedItems" = Some (JObj unprocessed) →
     unprocessed !! table = Some v → truthy v = false →
     fst (batchWrite remote self table requests st) = Returned (JObj res))
  ∧ (∀ unprocessed, res !! "UnprocessedItems" = Some (JObj unprocessed) →
       unprocessed !! table = None → table ∉ object_prototype_names →
       fst (batchWrite remote self table requests st) = Returned (JObj res))
  ∧ (∀ unprocessed, res !! "UnprocessedItems" = Some (JObj unprocessed) →
       unprocessed !! table = None → table ∈ object_prototype_names →
       fst (batchWrite remote self table requests st)
         = Thrown (http "Items unprocessed during the batch writing" 500))
  ∧ (res !! "UnprocessedItems" = None →
     fst (batchWrite remote self table requests st)
       = Thrown (http "Error batch writing items in database" 500)).
Proof.
  intros Hsend. unfold batchWrite. run. rewrite Hsend. simpl. unfold own.
  split; [|split; [|split]].
  - intros unprocessed v -> Hv Hfalsy. simpl. rewrite Hv, Hfalsy. simpl.
    by destruct (dev self).
  - intros unprocessed -> Hnone Hname. simpl. rewrite Hnone, inherited_none by done. simpl.
    by destruct (dev self).
  - intros unprocessed -> Hnone Hname. simpl. rewrite Hnone, inherited_member by done. simpl.
    by destruct (dev self).
  - intros ->. simpl. by destruct (dev self).
Qed.

(** X11.  When the client resolves, [set] returns the item it was given
    and [delete] the keys it was given, whatever the response holds;
    [update] returns the response itself. *)
Theorem writes_return (self : DynamoDB) (table : string) (item keys : JsVal)
    (updateExpression names values : JsVal) (condition : option string)
    (returnValues : option JsVal) (st : State World) (res : JsObject) (w : World) :
  (remote {| kind := PutItemCommand; input := set_params table item condition |} (world st)
     = (inr res, w) →
   fst (set remote self table item condition st) = Returned item)
  ∧ (remote {| kind := DeleteItemCommand; input := delete_params table keys condition |}
       (world st) = (inr res, w) →
     fst (delete remote self table keys condition st) = Returned keys)
  ∧ (remote {| kind := UpdateItemCommand;
               input := update_params table keys updateExpression names values
                          condition returnValues |} (world st) = (inr res, w) →
     fst (update remote self table keys updateExpression names values
            condition returnValues st) = Returned (JObj res)).
Proof.
  split; [|split]; intros Hsend.
  - unfold set. run. by rewrite Hsend.
  - unfold delete. run. by rewrite Hsend.
  - unfold update. run. by rewrite Hsend.
Qed.

(** X12.  When the client resolves, [query], [queryByGSI] and [scan]
    return the [Items] of the response, and [undefined] without an error
    when the response has none: unlike [get], they have no "not found". *)
Theorem reads_return_items (self : DynamoDB) (table indexName condition : string)
    (attributeNames keys : JsObject) (filter : option string)
    (filterValues : option JsObject) (st : State World) (res : JsObject) (w : World) :
  (remote {| kind := QueryCommand;
             input := query_params table condition keys filter filterValues |} (world st)
     = (inr res, w) →
   fst (query remote self table condition keys filter filterValues st)
     = Returned (default JUndefined (res !! "Items")))
  ∧ (remote {| kind := QueryCommand;
               input := queryByGSI_params table indexName condition attributeNames keys
                          filter filterValues |} (world st) = (inr res, w) →
     fst (queryByGSI remote self table indexName condition attributeNames keys
            filter filterValues st)
       = Returned (default JUndefined (res !! "Items")))
  ∧ (remote {| kind := ScanCommand; input := scan_params table filter filterValues |}
       (world st) = (inr res, w) →
     fst (scan remote self table filter filterValues st)
       = Returned (default JUndefined (res !! "Items"))).
Proof.
  split; [|split]; intros Hsend.
  - unfold query. run. by rewrite Hsend.
  - unfold queryByGSI. run. by rewrite Hsend.
  - unfold scan. run. by rewrite Hsend.
Qed.

End Results.

Lemma get_returns_the_item_witness :
  let item := JObj {[ "id" := JObj {[ "S" := JStr "test1" ]} ]} in
  truthy item = true
  ∧ ∃ res w, constant_remote {[ "Item" := item ]}
               {| kind := GetItemCommand; input := get_params "test" JNull |} (world start)
               = (inr res, w)
             ∧ res !! "Item" = Some item.
Proof.
  intros item.
  apply (get_returns_the_item (constant_remote {[ "Item" := item ]}) {| dev := false |}
           "test" JNull start item).
  vm_compute. reflexivity.
Defined.

Lemma batchGet_result_witness :
  let items := JArr [JObj {[ "id" := JObj {[ "S" := JStr "test1" ]} ]}] in
  fst (batchGet (constant_remote {[ "Responses" := JObj {[ "test" := items ]} ]})
         {| dev := false |} "test" (JArr []) None start) = Returned items
  ∧ fst (batchGet (constant_remote {[ "Responses" := JObj ∅ ]}) {| dev := false |}
           "test" (JArr []) None start) = Returned JUndefined
  ∧ fst (batchGet (constant_remote {[ "Responses" := JObj ∅ ]}) {| dev := false |}
           "toString" (JArr []) None start) = Returned (JBuiltin "toString")
  ∧ fst (batchGet (constant_remote ∅) {| dev := false |} "test" (JArr []) None start)
      = Thrown (http "Error getting batch items from database" 500).
Proof.
  intros items. split; [|split; [|split]].
  - destruct (batchGet_result (constant_remote {[ "Responses" := JObj {[ "test" := items ]} ]})
                {| dev := false |} "test" (JArr []) None start
                {[ "Responses" := JObj {[ "test" := items ]} ]} tt eq_refl)
      as (Hentry & _).
    apply (Hentry {[ "test" := items ]} items); reflexivity.
  - destruct (batchGet_result (constant_remote {[ "Responses" := JObj ∅ ]})
                {| dev := false |} "test" (JArr []) None start
                {[ "Responses" := JObj ∅ ]} tt eq_refl) as (_ & Hmissing & _).
    apply (Hmissing ∅); [reflexivity | reflexivity |].
    intros Hin. apply list_elem_of_In in Hin. simpl in Hin.
    repeat (destruct Hin as [Hin|Hin]; [discriminate|]). exact Hin.
  - destruct (batchGet_result (constant_remote {[ "Responses" := JObj ∅ ]})
                {| dev := false |} "toString" (JArr []) None start
                {[ "Responses" := JObj ∅ ]} tt eq_refl) as (_ & _ & Hinherited & _).
    apply (Hinherited ∅); [reflexivity | reflexivity |].
    apply list_elem_of_In. simpl. tauto.
  - destruct (batchGet_result (constant_remote ∅) {| dev := false |}
                "test" (JArr []) None start ∅ tt eq_refl) as (_ & _ & _ & Hnone).
    apply Hnone. reflexivity.
Defined.

Lemma batchWrite_result_witness :
  fst (batchWrite (constant_remote {[ "UnprocessedItems" := JObj {[ "test" := JNull ]} ]})
         {| dev := false |} "test" (JArr []) start)
    = Returned (JObj {[ "UnprocessedItems" := JObj {[ "test" := JNull ]} ]})
  ∧ fst (batchWrite (constant_remote {[ "UnprocessedItems" := JObj ∅ ]}) {| dev := false |}
           "test" (JArr []) start) = Returned (JObj {[ "UnprocessedItems" := JObj ∅ ]})
  ∧ fst (batchWrite (constant_remote {[ "UnprocessedItems" := JObj ∅ ]}) {| dev := false |}
           "constructor" (JArr []) start)
      = Thrown (http "Items unprocessed during the batch writing" 500)
  ∧ fst (batchWrite (constant_remote ∅) {| dev := false |} "test" (JArr []) start)
      = Thrown (http "Error batch writing items in database" 500).
Proof.
  split; [|split; [|split]].
  - destruct (batchWrite_result
                (constant_remote {[ "UnprocessedItems" := JObj {[ "test" := JNull ]} ]})
                {| dev := false |} "test" (JArr []) start
                {[ "UnprocessedItems" := JObj {[ "test" := JNull ]} ]} tt eq_refl)
      as (Hfalsy & _).
    apply (Hfalsy {[ "test" := JNull ]} JNull); reflexivity.
  - destruct (batchWrite_result (constant_remote {[ "UnprocessedItems" := JObj ∅ ]})
                {| dev := false |} "test" (JArr []) start
                {[ "UnprocessedItems" := JObj ∅ ]} tt eq_refl) as (_ & Hmissing & _).
    apply (Hmissing ∅); [reflexivity | reflexivity |].
    intros Hin. apply list_elem_of_In in Hin. simpl in Hin.
    repeat (destruct Hin as [Hin|Hin]; [discriminate|]). exact Hin.
  - destruct (batchWrite_result (constant_remote {[ "UnprocessedItems" := JObj ∅ ]})
                {| dev := false |} "constructor" (JArr []) start
                {[ "UnprocessedItems" := JObj ∅ ]} tt eq_refl) as (_ & _ & Hinherited & _).
    apply (Hinherited ∅); [reflexivity | reflexivity |].
    apply list_elem_of_In. simpl. tauto.
  - destruct (batchWrite_result (constant_remote ∅) {| dev := false |}
                "test" (JArr []) start ∅ tt eq_refl) as (_ & _ & _ & Hnone).
    apply Hnone. reflexivity.
Defined.

Lemma writes_return_witness :
  fst (set (constant_remote ∅) {| dev := false |} "test" (JStr "item") None start)
    = Returned (JStr "item")
  ∧ fst (delete (constant_remote ∅) {| dev := false |} "test" (JStr "key") None start)
      = Returned (JStr "key")
  ∧ fst (update (constant_remote {[ "Attributes" := JNull ]}) {| dev := false |} "test"
           (JStr "key") JNull JNull JNull None None start)
      = Returned (JObj {[ "Attributes" := JNull ]}).
Proof.
  split; [|split].
  - apply (proj1 (writes_return (constant_remote ∅) {| dev := false |} "test"
                    (JStr "item") JNull JNull JNull JNull None None start ∅ tt)).
    reflexivity.
  - apply (proj1 (proj2 (writes_return (constant_remote ∅) {| dev := false |} "test"
                           JNull (JStr "key") JNull JNull JNull None None start ∅ tt))).
    reflexivity.
  - apply (proj2 (proj2 (writes_return (constant_remote {[ "Attributes" := JNull ]})
                           {| dev := false |} "test" JNull (JStr "key") JNull JNull JNull
                           None None start {[ "Attributes" := JNull ]} tt))).
    reflexivity.
Defined.

Lemma reads_return_items_witness :
  fst (query (constant_remote ∅) {| dev := false |} "test" "id = :id" ∅ None None start)
    = Returned JUndefined
  ∧ fst (queryByGSI (constant_remote {[ "Items" := JArr [] ]}) {| dev := false |}
           "test" "name-index" "#name = :name" ∅ ∅ None None start)
      = Returned (JArr [])
  ∧ fst (scan (constant_remote {[ "Items" := JArr [] ]}) {| dev := false |}
           "test" None None start)
      = Returned (JArr []).
Proof.
  split; [|split].
  - etrans;
      [apply (proj1 (reads_return_items (constant_remote ∅) {| dev := false |}
                       "test" "name-index" "id = :id" ∅ ∅ None None start ∅ tt))|];
      reflexivity.
  - etrans;
      [apply (proj1 (proj2 (reads_return_items (constant_remote {[ "Items" := JArr [] ]})
                              {| dev := false |} "test" "name-index" "#name = :name" ∅ ∅
                              None None start {[ "Items" := JArr [] ]} tt)))|];
      reflexivity.
  - etrans;
      [apply (proj2 (proj2 (reads_return_items (constant_remote {[ "Items" := JArr [] ]})
                              {| dev := false |} "test" "name-index" "#name = :name" ∅ ∅
                              None None start {[ "Items" := JArr [] ]} tt)))|];
      reflexivity.
Defined.

(** ** clearTable at its edges *)

Section ClearTableEdges.

Context {World : Type}.
Variable remote : Command → World → (JsError + JsObject) * World.

#[local] Ltac split_ifs :=
  repeat match goal with
         | |- context [if ?b then _ else _] => destruct b eqn:?; simpl
         end.

(** One item without properties to read makes the whole [map] throw. *)
Lemma map_elements_nullish (items : list JsVal) (item : JsVal) :
  item ∈ items → item = JNull ∨ item = JUndefined →
  ∃ e, map_elements delete_request items = Thrown e.
Proof.
  intros Hin Hnullish. induction items as [|x items IH]; [by apply not_elem_of_nil in Hin|].
  simpl. destruct (delete_request x) as [y|e] eqn:Hx; [|by exists e].
  apply elem_of_cons in Hin as [->|Hin].
  - destruct Hnullish as [-> | ->]; discriminate.
  - destruct (IH Hin) as [e ->]. by exists e.
Qed.

(** X13.  On a table whose scan returns no item, [clearTable] still sends
    a batch write, with an empty list of requests; if the service rejects
    that command, [clearTable] fails with status 500 although there was
    nothing to clear. *)
Theorem clearTable_empty_table (self : DynamoDB) (table : string) (st : State World)
    (res : JsObject) (w : World) :
  let scanCommand := {| kind := ScanCommand; input := {[ "TableName" := JStr table ]} |} in
  let emptyBatch := {| kind := BatchWriteItemCommand;
                       input := {[ "RequestItems" := JObj {[ table := JArr [] ]} ]} |} in
  remote scanCommand (world st) = (inr res, w) →
  res !! "Items" = Some (JArr []) →
  sent (snd (clearTable remote self table st)) = (sent st ++ [scanCommand; emptyBatch])%list
  ∧ (∀ error w', remote emptyBatch w = (inl error, w') →
       fst (clearTable remote self table st)
         = Thrown (http "Error clearing table in database" 500)).
Proof.
  intros scanCommand emptyBatch Hscan Hitems.
  assert (own res "Items" = JArr (JObj <$> [])) as Hown by (unfold own; by rewrite Hitems).
  destruct (clearTable_run remote self table st res w [] Hscan Hown) as [Hsent Hresult].
  split; [exact Hsent|].
  intros error w' Hbatch. rewrite Hresult. simpl.
  unfold batchWrite. run. unfold batchWrite_params. fold emptyBatch. rewrite Hbatch. simpl.
  by destruct (dev self).
Qed.

(** X14.  When the response of the scan has no [Items], or has a [null] or
    [undefined] among them, [clearTable] fails with status 500 and sends
    no batch write: not one item is deleted, the well-formed ones
    included. *)
Theorem clearTable_all_or_nothing (self : DynamoDB) (table : string) (st : State World)
    (res : JsObject) (w : World) :
  let scanCommand := {| kind := ScanCommand; input := {[ "TableName" := JStr table ]} |} in
  remote scanCommand (world st) = (inr res, w) →
  (res !! "Items" = None
   ∨ ∃ items item, res !! "Items" = Some (JArr items) ∧ item ∈ items
                   ∧ (item = JNull ∨ item = JUndefined)) →
  fst (clearTable remote self table st) = Thrown (http "Error clearing table in database" 500)
  ∧ sent (snd (clearTable remote self table st)) = (sent st ++ [scanCommand])%list.
Proof.
  intros scanCommand Hscan Hitems. unfold clearTable. run. fold scanCommand.
  rewrite Hscan. simpl. unfold own.
  destruct Hitems as [-> | (items & item & -> & Hin & Hnullish)]; simpl.
  - by destruct (dev self).
  - destruct (map_elements_nullish items item Hin Hnullish) as [e ->]. simpl.
    by destruct (dev self).
Qed.

(** X15.  [clearTable] talks to the service as [scan] of the table
    followed by [batchWrite] of the delete requests would: the same
    commands in the same order, the same state of the service afterwards,
    and it returns exactly when that sequence returns. *)
Theorem clearTable_is_scan_then_batchWrite (self : DynamoDB) (table : string)
    (st : State World) :
  sent (snd (clearTable remote self table st))
    = sent (snd (scan_then_batchWrite remote self table st))
  ∧ world (snd (clearTable remote self table st))
      = world (snd (scan_then_batchWrite remote self table st))
  ∧ (fst (clearTable remote self table st) = Returned JUndefined
     ↔ ∃ v, fst (scan_then_batchWrite remote self table st) = Returned v).
Proof.
  unfold clearTable, scan_then_batchWrite, scan. run.
  destruct (remote _ (world st)) as [[error|res] w]; simpl.
  - split_ifs; simpl; (split; [done|]); (split; [done|]); (split; [done | by intros [? ?]]).
  - destruct (array_map delete_request (own res "Items")) as [requests|e]; simpl.
    + destruct (batchWrite remote self table (JArr requests) _) as [[v|e] st2]; simpl.
      * split; [done|]. split; [done|]. split; [by exists v | done].
      * split_ifs; simpl; (split; [done|]); (split; [done|]);
          (split; [done | by intros [? ?]]).
    + split_ifs; simpl; (split; [done|]); (split; [done|]); (split; [done | by intros [? ?]]).
Qed.

End ClearTableEdges.

Lemma clearTable_empty_table_witness :
  let remote := scripted_remote (λ k,
                  match k with
                  | ScanCommand => inr {[ "Items" := JArr [] ]}
                  | _ => inl {| err_name := "ValidationException"; err_message := "rejected" |}
                  end) in
  sent (snd (clearTable remote {| dev := false |} "test" start))
    = [ {| kind := ScanCommand; input := {[ "TableName" := JStr "test" ]} |};
        {| kind := BatchWriteItemCommand;
           input := {[ "RequestItems" := JObj {[ "test" := JArr [] ]} ]} |} ]
  ∧ fst (clearTable remote {| dev := false |} "test" start)
      = Thrown (http "Error clearing table in database" 500).
Proof.
  intros remote.
  destruct (clearTable_empty_table remote {| dev := false |} "test" start
              {[ "Items" := JArr [] ]} tt eq_refl eq_refl) as [Hsent Hrejected].
  split; [exact Hsent|].
  apply (Hrejected {| err_name := "ValidationException"; err_message := "rejected" |} tt).
  reflexivity.
Defined.

Lemma clearTable_all_or_nothing_witness :
  let items := [JObj {[ "id" := JObj {[ "S" := JStr "a" ]} ]}; JNull] in
  fst (clearTable (constant_remote {[ "Items" := JArr items ]}) {| dev := false |}
         "test" start)
    = Thrown (http "Error clearing table in database" 500)
  ∧ sent (snd (clearTable (constant_remote {[ "Items" := JArr items ]}) {| dev := false |}
                 "test" start))
      = [ {| kind := ScanCommand; input := {[ "TableName" := JStr "test" ]} |} ].
Proof.
  intros items.
  apply (clearTable_all_or_nothing (constant_remote {[ "Items" := JArr items ]})
           {| dev := false |} "test" start {[ "Items" := JArr items ]} tt eq_refl).
  right. exists items, JNull. split; [reflexivity|]. split; [by right; left | by left].
Defined.
